(** * Triton cache-key generator: a shallow embedding and its properties

    The program under study is [triton-cache-keygen.py].  It gathers five
    fingerprint components (toolchain key, source text, backend descriptor,
    compilation options, cache-invalidating environment variables), hashes
    four of them with SHA-256, joins the five parts with ["-"] and hashes the
    joined string once more.

    Layout of the development:
    - [Py]      Python values used by the script: [str] as a list of code
                points, exceptions, the result monad, [str.encode()].
    - [SHA256]  [hashlib.sha256(...).hexdigest()], executable.
    - [Sorting] [<] on strings and tuples, and [sorted].
    - [Json]    [json.dumps] as the script calls it.
    - [KeyGen]  the script's functions, over a record [World] describing
                what the external collaborators answer.
    - [Logged]  the same functions together with the records they log.
    - the properties.

    The functions of [KeyGen] give return values, raised exceptions,
    standard output and the exit status; the records handed to the logger
    are added in [Logged].  Exceptions are those deriving from
    [Exception]. *)

From Stdlib Require Import NArith ZArith Ascii String Lia.
From Stdlib Require Import DecimalString DecimalPos DecimalZ.
From stdpp Require Import base decidable option list sorting lexico gmap.

Local Open Scope N_scope.

(* ===================================================================== *)
(** ** Python values *)
(* ===================================================================== *)

Module Py.

(** A Python [str] is a sequence of Unicode code points. *)
Abbreviation str := (list N) (only parsing).

(** A Python [bytes] object; every element is below 256. *)
Abbreviation bytes := (list N) (only parsing).

(** A literal of the script, given as an ASCII string. *)
Definition lit (s : string) : str :=
  List.map N_of_ascii (list_ascii_of_string s).

(** The double-quote character, which literals cannot carry. *)
Definition dquote : str := [34].

(** Exceptions deriving from [Exception].  [ModuleNotFoundError] is a
    subclass of [ImportError]; [OtherException] stands for any class that
    is neither an [ImportError] nor a [UnicodeEncodeError]. *)
Inductive exn : Type :=
| ImportError
| ModuleNotFoundError
| UnicodeEncodeError
| OtherException (cls : string).

(** [isinstance(e, ImportError)], as tested by [except ImportError]. *)
Definition is_ImportError (e : exn) : bool :=
  match e with
  | ImportError | ModuleNotFoundError => true
  | _ => false
  end.

(** The outcome of evaluating an expression: a value or a raised
    exception. *)
Inductive result (A : Type) : Type :=
| Ok (a : A)
| Raise (e : exn).
Global Arguments Ok {A} a.
Global Arguments Raise {A} e.

Definition bind {A B} (m : result A) (k : A -> result B) : result B :=
  match m with
  | Ok a => k a
  | Raise e => Raise e
  end.

(** [try: m  except C as e: h e], where [catches] decides membership in
    the class [C]. *)
Definition try_except {A} (m : result A) (catches : exn -> bool)
    (h : exn -> result A) : result A :=
  match m with
  | Ok a => Ok a
  | Raise e => if catches e then h e else Raise e
  end.

(** [except Exception] catches every exception of the model. *)
Definition is_Exception (_ : exn) : bool := true.

(** [x or d] on an optional string: [None] and [""] are falsy. *)
Definition or_else (x : option str) (d : str) : str :=
  match x with
  | Some (c :: s) => c :: s
  | Some [] | None => d
  end.

(** [str(n)] for an [int]. *)
Definition str_of_int (z : Z) : str :=
  lit (NilZero.string_of_int (Z.to_int z)).

(** [sep.join(parts)]. *)
Fixpoint join (sep : str) (parts : list str) : str :=
  match parts with
  | [] => []
  | [p] => p
  | p :: ps => p ++ sep ++ join sep ps
  end.

(** Lowercase hexadecimal digit of a value below 16. *)
Definition hexdigit (d : N) : N :=
  if d <? 10 then 48 + d else 87 + d.

(** The [n] low hexadecimal digits of [x], most significant first, as
    produced by the format [{:0nx}] on a value below [16^n]. *)
Definition hex (n : nat) (x : N) : str :=
  List.map (fun i => hexdigit (N.land (N.shiftr x (4 * N.of_nat i)) 15))
           (rev (seq 0 n)).

(** UTF-8 encoding of one code point; [None] for a surrogate or a value
    beyond U+10FFFF, which [str.encode()] rejects. *)
Definition utf8_char (c : N) : option bytes :=
  if c <? 0x80 then Some [c]
  else if c <? 0x800 then
    Some [N.lor 0xC0 (N.shiftr c 6); N.lor 0x80 (N.land c 0x3F)]
  else if c <? 0x10000 then
    if (0xD800 <=? c) && (c <=? 0xDFFF) then None
    else Some [N.lor 0xE0 (N.shiftr c 12);
               N.lor 0x80 (N.land (N.shiftr c 6) 0x3F);
               N.lor 0x80 (N.land c 0x3F)]
  else if c <? 0x110000 then
    Some [N.lor 0xF0 (N.shiftr c 18);
          N.lor 0x80 (N.land (N.shiftr c 12) 0x3F);
          N.lor 0x80 (N.land (N.shiftr c 6) 0x3F);
          N.lor 0x80 (N.land c 0x3F)]
  else None.

Fixpoint utf8 (s : str) : option bytes :=
  match s with
  | [] => Some []
  | c :: s' =>
      match utf8_char c, utf8 s' with
      | Some b, Some bs => Some (b ++ bs)
      | _, _ => None
      end
  end.

(** [s.encode()]: UTF-8, strict. *)
Definition encode (s : str) : result bytes :=
  match utf8 s with
  | Some b => Ok b
  | None => Raise UnicodeEncodeError
  end.

End Py.

Import Py.

(** [result] is a monad; sequencing is written [x ← m; k]. *)
Global Instance result_ret : MRet result := @Ok.
Global Instance result_bind : MBind result := fun A B k m => Py.bind m k.

(* ===================================================================== *)
(** ** SHA-256 ([hashlib.sha256(data).hexdigest()]) *)
(* ===================================================================== *)

Module SHA256.

Definition modulus : N := 4294967296.

Definition add32 (x y : N) : N := (x + y) mod modulus.

Definition rotr (n x : N) : N :=
  N.lor (N.shiftr x n) ((N.shiftl x (32 - n)) mod modulus).

Definition not32 (x : N) : N := N.lxor x (modulus - 1).

Definition Ch (x y z : N) : N := N.lxor (N.land x y) (N.land (not32 x) z).
Definition Maj (x y z : N) : N :=
  N.lxor (N.lxor (N.land x y) (N.land x z)) (N.land y z).
Definition bsig0 (x : N) : N :=
  N.lxor (N.lxor (rotr 2 x) (rotr 13 x)) (rotr 22 x).
Definition bsig1 (x : N) : N :=
  N.lxor (N.lxor (rotr 6 x) (rotr 11 x)) (rotr 25 x).
Definition ssig0 (x : N) : N :=
  N.lxor (N.lxor (rotr 7 x) (rotr 18 x)) (N.shiftr x 3).
Definition ssig1 (x : N) : N :=
  N.lxor (N.lxor (rotr 17 x) (rotr 19 x)) (N.shiftr x 10).

(** Round constants, in decimal. *)
Definition K : list N :=
  [ 1116352408; 1899447441; 3049323471; 3921009573;
    961987163; 1508970993; 2453635748; 2870763221;
    3624381080; 310598401; 607225278; 1426881987;
    1925078388; 2162078206; 2614888103; 3248222580;
    3835390401; 4022224774; 264347078; 604807628;
    770255983; 1249150122; 1555081692; 1996064986;
    2554220882; 2821834349; 2952996808; 3210313671;
    3336571891; 3584528711; 113926993; 338241895;
    666307205; 773529912; 1294757372; 1396182291;
    1695183700; 1986661051; 2177026350; 2456956037;
    2730485921; 2820302411; 3259730800; 3345764771;
    3516065817; 3600352804; 4094571909; 275423344;
    430227734; 506948616; 659060556; 883997877;
    958139571; 1322822218; 1537002063; 1747873779;
    1955562222; 2024104815; 2227730452; 2361852424;
    2428436474; 2756734187; 3204031479; 3329325298 ].

(** Eight 32-bit words: the chaining value, and the working variables
    a..h of one compression. *)
Record words8 : Type := W8 {
  wa : N; wb : N; wc : N; wd : N; we : N; wf : N; wg : N; wh : N
}.

Definition H0 : words8 :=
  W8 1779033703 3144134277 1013904242 2773480762
     1359893119 2600822924 528734635 1541459225.

(** Padding: a 1 bit, zero bits up to 56 mod 64 bytes, then the bit
    length on 8 bytes, big-endian. *)
Definition be_bytes (n : nat) (x : N) : list N :=
  List.map (fun i => N.land (N.shiftr x (8 * N.of_nat i)) 255)
           (rev (seq 0 n)).

Definition pad (msg : bytes) : bytes :=
  let len := N.of_nat (length msg) in
  let zeros := (119 - len mod 64) mod 64 in
  msg ++ [128] ++ repeat 0 (N.to_nat zeros) ++ be_bytes 8 (8 * len).

(** Big-endian 32-bit words of a byte sequence. *)
Fixpoint be_words (l : bytes) : list N :=
  match l with
  | b0 :: b1 :: b2 :: b3 :: r =>
      (b0 * 16777216 + b1 * 65536 + b2 * 256 + b3) :: be_words r
  | _ => []
  end.

(** The [n] leading 16-word blocks of a word sequence. *)
Fixpoint blocks (n : nat) (ws : list N) : list (list N) :=
  match n with
  | O => []
  | S n' => take 16 ws :: blocks n' (drop 16 ws)
  end.

(** Message schedule, newest word first: [rw] holds W[t-1], W[t-2], ... *)
Definition next_w (rw : list N) : N :=
  add32 (add32 (ssig1 (nth 1 rw 0)) (nth 6 rw 0))
        (add32 (ssig0 (nth 14 rw 0)) (nth 15 rw 0)).

Fixpoint expand (n : nat) (rw : list N) : list N :=
  match n with
  | O => rw
  | S n' => expand n' (next_w rw :: rw)
  end.

Definition schedule (block : list N) : list N :=
  rev (expand 48 (rev block)).

Definition round (s : words8) (kw : N * N) : words8 :=
  let '(W8 a b c d e f g h) := s in
  let t1 := add32 (add32 (add32 h (bsig1 e)) (Ch e f g))
                  (add32 (fst kw) (snd kw)) in
  let t2 := add32 (bsig0 a) (Maj a b c) in
  W8 (add32 t1 t2) a b c (add32 d t1) e f g.

Definition add8 (x y : words8) : words8 :=
  W8 (add32 (wa x) (wa y)) (add32 (wb x) (wb y))
     (add32 (wc x) (wc y)) (add32 (wd x) (wd y))
     (add32 (we x) (we y)) (add32 (wf x) (wf y))
     (add32 (wg x) (wg y)) (add32 (wh x) (wh y)).

Definition compress (h : words8) (block : list N) : words8 :=
  add8 h (fold_left round (combine K (schedule block)) h).

Definition digest_words (msg : bytes) : words8 :=
  let ws := be_words (pad msg) in
  fold_left compress (blocks (length ws / 16) ws) H0.

Definition hexdigest (msg : bytes) : str :=
  let '(W8 a b c d e f g h) := digest_words msg in
  hex 8 a ++ hex 8 b ++ hex 8 c ++ hex 8 d ++
  hex 8 e ++ hex 8 f ++ hex 8 g ++ hex 8 h.

End SHA256.

(* ===================================================================== *)
(** ** Ordering and sorting ([<] on [str] and tuples, [sorted]) *)
(* ===================================================================== *)

Module Sorting.

(** Python compares strings code point by code point and tuples
    component by component: the lexicographic order [lexico]. *)
Definition str_lt : relation str := lexico.
Definition item_lt : relation (str * str) := lexico.

(** [sorted] is a stable sort driven by [<]: an element stays in front
    of a later one unless the later one is strictly smaller. *)
Definition item_le : relation (str * str) := fun x y => ~ item_lt y x.

Global Instance item_le_dec (x y : str * str) : Decision (item_le x y).
Proof. unfold item_le, item_lt. apply _. Defined.

(** [sorted(d.items())] *)
Definition sorted (items : list (str * str)) : list (str * str) :=
  merge_sort item_le items.

(** The order used for [sort_keys=True]: by key ([fst]) only. *)
Definition key_le : relation (str * str) :=
  fun x y => ~ str_lt (fst y) (fst x).

Global Instance key_le_dec (x y : str * str) : Decision (key_le x y).
Proof. unfold key_le, str_lt. apply _. Defined.

End Sorting.

(* ===================================================================== *)
(** ** [json.dumps] *)
(* ===================================================================== *)

Module Json.

(** The JSON-serialisable values the script builds.  A tuple is
    serialised like a list; a [dict] keeps its insertion order. *)
#[local] Set Warnings "-register-all".
Inductive value : Type :=
| JBool (b : bool)
| JInt (z : Z)
| JStr (s : str)
| JList (l : list value)
| JDict (d : list (str * value)).

(** [ensure_ascii=True] escaping of one code point. *)
Definition escape_char (c : N) : str :=
  if c =? 34 then [92; 34]
  else if c =? 92 then [92; 92]
  else if c =? 10 then [92; 110]
  else if c =? 13 then [92; 114]
  else if c =? 9 then [92; 116]
  else if c =? 8 then [92; 98]
  else if c =? 12 then [92; 102]
  else if (32 <=? c) && (c <=? 126) then [c]
  else if c <? 0x10000 then [92; 117] ++ hex 4 c
  else
    let n := c - 0x10000 in
    [92; 117] ++ hex 4 (N.lor 0xD800 (N.land (N.shiftr n 10) 0x3FF)) ++
    [92; 117] ++ hex 4 (N.lor 0xDC00 (N.land n 0x3FF)).

Definition quote (s : str) : str :=
  dquote ++ concat (List.map escape_char s) ++ dquote.

(** With [indent=None] items are separated by [", "]; with an indent by
    [","] followed by a newline and the indentation of the level. *)
Definition item_separator (indent : option nat) : str :=
  match indent with
  | None => lit ", "
  | Some _ => lit ","
  end.

Definition newline_indent (indent : option nat) (level : nat) : str :=
  match indent with
  | None => []
  | Some n => 10 :: repeat 32 (n * level)%nat
  end.

(** A list or dict whose items are already rendered. *)
Definition container (indent : option nat) (level : nat)
    (opening closing : str) (items : list str) : str :=
  match items with
  | [] => opening ++ closing
  | _ :: _ =>
      opening ++ newline_indent indent (S level) ++
      join (item_separator indent ++ newline_indent indent (S level)) items ++
      newline_indent indent level ++ closing
  end.

Fixpoint dumps_at (indent : option nat) (sort_keys : bool) (level : nat)
    (v : value) : str :=
  match v with
  | JBool b => if b then lit "true" else lit "false"
  | JInt z => str_of_int z
  | JStr s => quote s
  | JList l =>
      container indent level (lit "[") (lit "]")
        (List.map (dumps_at indent sort_keys (S level)) l)
  | JDict d =>
      let rendered :=
        List.map (fun kv => match kv with
                            | (k, x) => (k, dumps_at indent sort_keys (S level) x)
                            end) d in
      let items :=
        if sort_keys then merge_sort Sorting.key_le rendered else rendered in
      container indent level (lit "{") (lit "}")
        (List.map (fun kv => quote (fst kv) ++ lit ": " ++ snd kv) items)
  end.

(** [json.dumps(v, indent=indent, sort_keys=sort_keys)] *)
Definition dumps (v : value) (indent : option nat) (sort_keys : bool) : str :=
  dumps_at indent sort_keys 0 v.

End Json.

Import Json.

(* ===================================================================== *)
(** ** The script *)
(* ===================================================================== *)

Module KeyGen.

(** A [Dict[str, str]] in insertion order; the keys of a dict are
    pairwise distinct. *)
Abbreviation dict := (list (str * str)) (only parsing).

(** Modelled from the spec: the object returned by the active driver's
    [get_current_target()], which is declared in Triton and not in this
    repository: a backend name, an architecture string and a
    warp/wavefront width integer. *)
Record GPUTarget : Type := {
  backend : str;
  arch : str;
  warp_size : Z
}.

(** What the collaborators outside the script answer during one run:
    - [triton_key]: [triton.compiler.compiler.triton_key()], given by its
      string form;
    - [import_libtriton]: the statement
      [from triton._C.libtriton import get_cache_invalidating_env_vars];
    - [libtriton_get_env_vars]: the call [_get_env_vars()];
    - [import_driver]: [from triton.runtime.driver import driver];
    - [active_get_current_target]: [driver.active.get_current_target()]
      followed by the three attribute reads;
    - [environ]: [os.environ]. *)
Record World : Type := {
  triton_key : result str;
  import_libtriton : result unit;
  libtriton_get_env_vars : result dict;
  import_driver : result unit;
  active_get_current_target : result GPUTarget;
  environ : gmap str str
}.

(** [os.getenv(name, default)] *)
Definition getenv (w : World) (name default_value : str) : str :=
  default default_value (environ w !! name).

(** The body of the [try] in [get_cache_invalidating_env_vars]: the
    registry query. *)
Definition query_env_registry (w : World) : result dict :=
  _ ← import_libtriton w;
  libtriton_get_env_vars w.

Definition get_cache_invalidating_env_vars (w : World) : result dict :=
  try_except (query_env_registry w) is_ImportError (fun e => Ok []).

(** The body of the [try] in [get_current_target]: the driver query and
    the formatting of the descriptor. *)
Definition query_current_target (w : World) : result str :=
  _ ← import_driver w;
  target ← active_get_current_target w;
  Ok (backend target ++ lit "-" ++ arch target ++ lit "-" ++
      str_of_int (warp_size target)).

Definition get_current_target (w : World) : result str :=
  try_except (query_current_target w) is_Exception
             (fun e => Ok (lit "unknown-backend-0-0")).

Definition get_env_vars_for_cache (w : World) : result dict :=
  core_vars ← get_cache_invalidating_env_vars w;
  Ok core_vars.

(** The four hashed entries of [components] and the record itself. *)
Record Source : Type := { source_content : str; source_hash : str }.
Record Backend : Type := { backend_info : str; backend_hash : str }.
Record Options : Type := {
  options_values : list (str * Json.value);
  options_hash : str
}.
Record Environment : Type := {
  environment_variables : dict;
  environment_hash : str
}.
Record Components : Type := {
  comp_triton_key : str;
  comp_source : Source;
  comp_backend : Backend;
  comp_options : Options;
  comp_environment : Environment;
  comp_final_composite : str
}.

(** [hashlib.sha256(s.encode()).hexdigest()] *)
Definition sha256_hex (s : str) : result str :=
  data ← encode s;
  Ok (SHA256.hexdigest data).

(** The argument of [json.dumps] for the environment: the list of
    (name, value) tuples. *)
Definition items_value (items : list (str * str)) : Json.value :=
  JList (List.map (fun kv => JList [JStr (fst kv); JStr (snd kv)]) items).

Definition generate_triton_cache_key (w : World) (source_hash : option str)
    : result (str * Components) :=
  try_except
    (tk ← triton_key w;
     let source_content := or_else source_hash (lit "dummy_source_content") in
     sh ← sha256_hex source_content;
     let source := {| source_content := source_content; source_hash := sh |} in
     backend_info ← get_current_target w;
     bh ← sha256_hex backend_info;
     let backend := {| backend_info := backend_info; backend_hash := bh |} in
     let options :=
       [ (lit "num_warps", JInt 4);
         (lit "num_stages", JInt 3);
         (lit "debug",
          JBool (bool_decide (getenv w (lit "TRITON_DEBUG") (lit "0") = lit "1"))) ] in
     oh ← sha256_hex (dumps (JDict options) None true);
     let opts := {| options_values := options; options_hash := oh |} in
     env_vars ← get_env_vars_for_cache w;
     eh ← sha256_hex (dumps (items_value (Sorting.sorted env_vars)) None true);
     let env := {| environment_variables := env_vars; environment_hash := eh |} in
     let key_components :=
       tk ++ lit "-" ++ sh ++ lit "-" ++ bh ++ lit "-" ++ oh ++ lit "-" ++ eh in
     final_hash ← sha256_hex key_components;
     Ok (final_hash,
         {| comp_triton_key := tk;
            comp_source := source;
            comp_backend := backend;
            comp_options := opts;
            comp_environment := env;
            comp_final_composite := key_components |}))
    is_Exception
    (fun e => Raise e).

(** The values handed to [format_component]. *)
Inductive component : Type :=
| CStr (s : str)
| CDict (d : list (str * Json.value))
| CSeq (l : list str).

Definition format_component (c : component) : str :=
  match c with
  | CDict d => dumps (JDict d) (Some 2%nat) true
  | CSeq l => join [10] l
  | CStr s => s
  end.

(** The entries of [components] as Python dicts. *)
Definition source_dict (s : Source) : list (str * Json.value) :=
  [ (lit "content", JStr (source_content s)); (lit "hash", JStr (source_hash s)) ].
Definition backend_dict (b : Backend) : list (str * Json.value) :=
  [ (lit "info", JStr (backend_info b)); (lit "hash", JStr (backend_hash b)) ].
Definition options_dict (o : Options) : list (str * Json.value) :=
  [ (lit "values", JDict (options_values o)); (lit "hash", JStr (options_hash o)) ].
Definition variables_dict (d : dict) : list (str * Json.value) :=
  List.map (fun kv => (fst kv, JStr (snd kv))) d.

(** [print(s)] appends [s] and a newline to standard output. *)
Definition print (s : str) : str := s ++ [10].

Definition breakdown (c : Components) : str :=
  print (10 :: lit "Cache Key Components Breakdown:") ++
  print (repeat 45 40) ++
  print (10 :: lit "1. Triton Installation Fingerprint:") ++
  print (format_component (CStr (comp_triton_key c))) ++
  print (10 :: lit "2. Source Code:") ++
  print (format_component (CDict (source_dict (comp_source c)))) ++
  print (10 :: lit "3. Backend Configuration:") ++
  print (format_component (CDict (backend_dict (comp_backend c)))) ++
  print (10 :: lit "4. Compilation Options:") ++
  print (format_component (CDict (options_dict (comp_options c)))) ++
  print (10 :: lit "5. Environment Variables:") ++
  print (format_component
           (CDict (variables_dict (environment_variables (comp_environment c))))) ++
  print (10 :: lit "6. Final Composite String:") ++
  print (format_component (CStr (comp_final_composite c))) ++
  print (10 :: repeat 61 40) ++
  print (lit "Final Cache Key:").

(** The [__main__] block after [parse_args()]: what is written to
    standard output, and the exit status.  The [except Exception] clause
    exits with status 1; the call of [generate_triton_cache_key] is the
    only statement of the [try] body that raises, so nothing has been
    printed when the clause runs. *)
Definition main (w : World) (verbose : bool) : str * Z :=
  match
    '(cache_key, components) ← generate_triton_cache_key w None;
    Ok ((if verbose then breakdown components else []) ++
        print (10 :: cache_key))
  with
  | Ok out => (out, 0%Z)
  | Raise e => ([], 1%Z)
  end.

End KeyGen.

Import KeyGen.

(* ===================================================================== *)
(** ** Vocabulary of the properties *)
(* ===================================================================== *)

(** The placeholder source and the sentinel backend descriptor. *)
Definition placeholder : str := lit "dummy_source_content".
Definition sentinel : str := lit "unknown-backend-0-0".

(** A lowercase hexadecimal digit: [0-9a-f]. *)
Definition is_lower_hex (c : N) : bool :=
  ((48 <=? c) && (c <=? 57)) || ((97 <=? c) && (c <=? 102)).

(** A lowercase hexadecimal string of exactly 64 characters. *)
Definition hex64 (s : str) : Prop :=
  length s = 64%nat /\ forallb is_lower_hex s = true.

(** The eight words of a digest fit in 32 bits, so eight hexadecimal
    digits render each of them in full. *)
Definition bounded8 (x : SHA256.words8) : Prop :=
  SHA256.wa x < SHA256.modulus /\ SHA256.wb x < SHA256.modulus /\
  SHA256.wc x < SHA256.modulus /\ SHA256.wd x < SHA256.modulus /\
  SHA256.we x < SHA256.modulus /\ SHA256.wf x < SHA256.modulus /\
  SHA256.wg x < SHA256.modulus /\ SHA256.wh x < SHA256.modulus.

(** Every code point is below 128. *)
Definition is_ascii (s : str) : bool := forallb (fun c => c <? 128) s.

(** [s.encode()] does not raise. *)
Definition encodable (s : str) : Prop := exists data, utf8 s = Some data.

(** The canonical serialisation of the options mapping with debug flag
      [b]: [{"debug": b, "num_stages": 3, "num_warps": 4}]. *)
Definition options_json (b : bool) : str :=
  lit "{" ++ dquote ++ lit "debug" ++ dquote ++ lit ": " ++
  (if b then lit "true" else lit "false") ++ lit ", " ++
  dquote ++ lit "num_stages" ++ dquote ++ lit ": 3, " ++
  dquote ++ lit "num_warps" ++ dquote ++ lit ": 4}".

(** The options mapping with debug flag [b], in the script's insertion
    order, and the flag the script reads from the environment. *)
Definition options_of (b : bool) : list (str * Json.value) :=
  [ (lit "num_warps", JInt 4); (lit "num_stages", JInt 3); (lit "debug", JBool b) ].
Definition debug_flag (w : World) : bool :=
  bool_decide (getenv w (lit "TRITON_DEBUG") (lit "0") = lit "1").

(** The serialisation of the environment component. *)
Definition env_json (d : dict) : str :=
  dumps (items_value (Sorting.sorted d)) None true.

(** The world [w] in which the registry query answers the mapping [d]. *)
Definition with_env_vars (w : World) (d : dict) : World :=
  {| triton_key := triton_key w;
     import_libtriton := Ok ();
     libtriton_get_env_vars := Ok d;
     import_driver := import_driver w;
     active_get_current_target := active_get_current_target w;
     environ := environ w |}.

(** Projections of a derivation's outcome. *)
Definition map_result {A B} (f : A -> B) (r : result A) : result B :=
  x ← r; Ok (f x).
Definition final_key (r : result (str * Components)) : result str :=
  map_result fst r.
Definition env_digest (r : result (str * Components)) : result str :=
  map_result (fun kc => environment_hash (comp_environment (snd kc))) r.

(** The record a derivation returns, in terms of what was gathered. *)
Definition components_of (tk src bi : str) (b : bool) (env : dict)
    (sh bh oh eh : str) : Components :=
  {| comp_triton_key := tk;
     comp_source := {| source_content := src; source_hash := sh |};
     comp_backend := {| backend_info := bi; backend_hash := bh |};
     comp_options := {| options_values := options_of b; options_hash := oh |};
     comp_environment :=
       {| environment_variables := env; environment_hash := eh |};
     comp_final_composite := join (lit "-") [tk; sh; bh; oh; eh] |}.

(** Sample runs. *)
Definition sample_world : World :=
  {| triton_key := Ok (lit "3.2.0-abc");
     import_libtriton := Ok ();
     libtriton_get_env_vars := Ok [(lit "B", lit "1"); (lit "A", lit "x")];
     import_driver := Ok ();
     active_get_current_target :=
       Ok {| backend := lit "cuda"; arch := lit "sm90"; warp_size := 32 |};
     environ := {[ lit "TRITON_DEBUG" := lit "1" ]} |}.

(** Sample runs in which one collaborator fails. *)
Definition no_toolchain_world : World :=
  {| triton_key := Raise (OtherException "AttributeError");
     import_libtriton := import_libtriton sample_world;
     libtriton_get_env_vars := libtriton_get_env_vars sample_world;
     import_driver := import_driver sample_world;
     active_get_current_target := active_get_current_target sample_world;
     environ := environ sample_world |}.

Definition no_driver_world : World :=
  {| triton_key := triton_key sample_world;
     import_libtriton := import_libtriton sample_world;
     libtriton_get_env_vars := libtriton_get_env_vars sample_world;
     import_driver := Ok ();
     active_get_current_target := Raise (OtherException "RuntimeError");
     environ := environ sample_world |}.

Definition no_registry_world : World :=
  {| triton_key := triton_key sample_world;
     import_libtriton := Raise ModuleNotFoundError;
     libtriton_get_env_vars := Ok [];
     import_driver := import_driver sample_world;
     active_get_current_target := active_get_current_target sample_world;
     environ := <[ lit "HOME" := lit "/root" ]> (environ sample_world) |}.

Definition broken_registry_world : World :=
  {| triton_key := triton_key sample_world;
     import_libtriton := Ok ();
     libtriton_get_env_vars := Raise (OtherException "RuntimeError");
     import_driver := import_driver sample_world;
     active_get_current_target := active_get_current_target sample_world;
     environ := environ sample_world |}.

(** The known digests of the sentinel descriptor and of [[]], the
    serialisation of the empty environment. *)
Definition sentinel_digest : str :=
  lit "0671601812c6834494e96b831da1ea926a7602f3b2145d6bdbca5ce95d952b85".
Definition empty_env_digest : str :=
  lit "4f53cda18c2baa0c0354bb5f9a3ecbe5ed12ab4d8e11ba873c2f11161202b945".

Definition sample_options : list (str * Json.value) :=
  [ (lit "num_warps", JInt 4); (lit "num_stages", JInt 3);
    (lit "debug", JBool true) ].

Definition sample_components : Components :=
  let sh := lit "3550da6426d1d1d6d632400c4f890c4866ae9137de7cae07274013293e8265a7" in
  let bh := lit "64872f49585d780b4d9bc07a029271470e20612fd12ea6d633b408dc0a0c947f" in
  let oh := lit "eea18816880f16979edfd17949f8415f16d698175ebb17c5bd86956a7cc08cfe" in
  let eh := lit "9cedff6ed33b2783d9ad14ee7c18e213acfc62ed8847946d4685cedb444fd300" in
  {| comp_triton_key := lit "3.2.0-abc";
     comp_source := {| source_content := placeholder; source_hash := sh |};
     comp_backend := {| backend_info := lit "cuda-sm90-32"; backend_hash := bh |};
     comp_options := {| options_values := sample_options; options_hash := oh |};
     comp_environment :=
       {| environment_variables := [(lit "B", lit "1"); (lit "A", lit "x")];
          environment_hash := eh |};
     comp_final_composite :=
       join (lit "-") [lit "3.2.0-abc"; sh; bh; oh; eh] |}.

Definition sample_key : str :=
  lit "ddfeafb2c12fa503089e06e9c257efb4c17759c5aa3184d6ace999fdd1c077fc".

(* ===================================================================== *)
(** ** The script with its log *)
(* ===================================================================== *)

(** The same functions, now with the records they hand to the logger.
    [logging.basicConfig(level=logging.INFO)] is in force. *)
Module Logged.

Inductive level : Type := DEBUG | INFO | WARNING | ERROR | CRITICAL.

Definition levelno (l : level) : N :=
  match l with
  | DEBUG => 10
  | INFO => 20
  | WARNING => 30
  | ERROR => 40
  | CRITICAL => 50
  end.

(** The argument interpolated for [%s]: an exception or a string. *)
Inductive arg : Type :=
| ArgExn (e : exn)
| ArgStr (s : str).

(** One emitted record: level, message format and argument. *)
Record record : Type := {
  levelname : level;
  msg : string;
  args : option arg
}.

(** A computation that logs: the records emitted so far and the outcome. *)
Definition logged (A : Type) : Type := (list record * result A)%type.

Definition ret {A} (a : A) : logged A := ([], Ok a).

Definition lift {A} (r : result A) : logged A := ([], r).

Definition bind {A B} (m : logged A) (k : A -> logged B) : logged B :=
  match m with
  | (l, Ok a) => let '(l', r) := k a in (l ++ l', r)
  | (l, Raise e) => (l, Raise e)
  end.

Global Instance logged_bind : MBind logged := fun A B k m => bind m k.

(** [logger.<level>(msg, arg)]: the root level [INFO] drops what is below. *)
Definition log (l : level) (m : string) (a : option arg) : logged unit :=
  (if levelno INFO <=? levelno l
   then [ {| levelname := l; msg := m; args := a |} ]
   else [],
   Ok ()).

(** [try: m  except C as e: h e]; what the body logged before raising
    stays in the log. *)
Definition try_except {A} (m : logged A) (catches : exn -> bool)
    (h : exn -> logged A) : logged A :=
  match m with
  | (l, Ok a) => (l, Ok a)
  | (l, Raise e) =>
      if catches e then let '(l', r) := h e in (l ++ l', r)
      else (l, Raise e)
  end.

Definition get_cache_invalidating_env_vars (w : World) : logged dict :=
  try_except (lift (query_env_registry w)) is_ImportError
    (fun e =>
       _ ← log WARNING "Failed to import Triton's C library: %s"
                       (Some (ArgExn e));
       ret []).

Definition get_current_target (w : World) : logged str :=
  try_except (lift (query_current_target w)) is_Exception
    (fun e =>
       _ ← log ERROR "Failed to get current target: %s" (Some (ArgExn e));
       ret (lit "unknown-backend-0-0")).

Definition get_env_vars_for_cache (w : World) : logged dict :=
  core_vars ← get_cache_invalidating_env_vars w;
  ret core_vars.

Definition generate_triton_cache_key (w : World) (source_hash : option str)
    : logged (str * Components) :=
  try_except
    (tk ← lift (triton_key w);
     _ ← log DEBUG "Triton key components: %s" (Some (ArgStr tk));
     let source_content := or_else source_hash (lit "dummy_source_content") in
     sh ← lift (sha256_hex source_content);
     let source := {| source_content := source_content; source_hash := sh |} in
     backend_info ← get_current_target w;
     bh ← lift (sha256_hex backend_info);
     let backend := {| backend_info := backend_info; backend_hash := bh |} in
     let options :=
       [ (lit "num_warps", JInt 4);
         (lit "num_stages", JInt 3);
         (lit "debug",
          JBool (bool_decide (getenv w (lit "TRITON_DEBUG") (lit "0") = lit "1"))) ] in
     oh ← lift (sha256_hex (dumps (JDict options) None true));
     let opts := {| options_values := options; options_hash := oh |} in
     env_vars ← get_env_vars_for_cache w;
     eh ← lift (sha256_hex
                  (dumps (items_value (Sorting.sorted env_vars)) None true));
     let env := {| environment_variables := env_vars; environment_hash := eh |} in
     let key_components :=
       tk ++ lit "-" ++ sh ++ lit "-" ++ bh ++ lit "-" ++ oh ++ lit "-" ++ eh in
     final_hash ← lift (sha256_hex key_components);
     ret (final_hash,
          {| comp_triton_key := tk;
             comp_source := source;
             comp_backend := backend;
             comp_options := opts;
             comp_environment := env;
             comp_final_composite := key_components |}))
    is_Exception
    (fun e =>
       _ ← log ERROR "Failed to generate cache key: %s" (Some (ArgExn e));
       lift (Raise e)).

(** The [__main__] block after [parse_args()]: the log, what is written
    to standard output, and the exit status. *)
Definition main (w : World) (verbose : bool) : list record * (str * Z) :=
  match
    (_ ← log INFO "Generating Triton cache key..." None;
     '(cache_key, components) ← generate_triton_cache_key w None;
     ret ((if verbose then breakdown components else []) ++
          print (10 :: cache_key)))
  with
  | (l, Ok out) => (l, (out, 0%Z))
  | (l, Raise e) =>
      (l ++ fst (log CRITICAL "Critical error during cache key generation: %s"
                     (Some (ArgExn e))),
       ([], 1%Z))
  end.

End Logged.

(* ===================================================================== *)
(** ** Further vocabulary *)
(* ===================================================================== *)

(** The world [w] with [os.environ] replaced by [env]. *)
Definition with_environ (w : World) (env : gmap (list N) (list N)) : World :=
  {| triton_key := triton_key w;
     import_libtriton := import_libtriton w;
     libtriton_get_env_vars := libtriton_get_env_vars w;
     import_driver := import_driver w;
     active_get_current_target := active_get_current_target w;
     environ := env |}.

(** The world [w] whose driver reports the target [t]. *)
Definition with_target (w : World) (t : GPUTarget) : World :=
  {| triton_key := triton_key w;
     import_libtriton := import_libtriton w;
     libtriton_get_env_vars := libtriton_get_env_vars w;
     import_driver := Ok ();
     active_get_current_target := Ok t;
     environ := environ w |}.

(** [TRITON_DEBUG] is set to ["1"]. *)
Definition debug_on (env : gmap (list N) (list N)) : Prop :=
  env !! lit "TRITON_DEBUG" = Some (lit "1").

(** No ["-"] occurs in the string. *)
Definition dash_free (s : str) : bool := forallb (fun c => negb (c =? 45)) s.

(** The two digests the options component can take, and the digest of
    the placeholder source. *)
Definition debug_on_digest : str :=
  lit "eea18816880f16979edfd17949f8415f16d698175ebb17c5bd86956a7cc08cfe".
Definition debug_off_digest : str :=
  lit "9c3d1e57ce05421b3c5f073fb25ecdf06c1c28f12fe60e4fc0305a79d2f41ee7".
Definition placeholder_digest : str :=
  lit "3550da6426d1d1d6d632400c4f890c4866ae9137de7cae07274013293e8265a7".

(** The keys of a dict handed to [format_component]. *)
Definition keys {V} (d : list (list N * V)) : list (list N) := List.map fst d.

(** The records a run can log. *)
Definition warning_import (e : exn) : Logged.record :=
  {| Logged.levelname := Logged.WARNING;
     Logged.msg := "Failed to import Triton's C library: %s";
     Logged.args := Some (Logged.ArgExn e) |}.
Definition error_target (e : exn) : Logged.record :=
  {| Logged.levelname := Logged.ERROR;
     Logged.msg := "Failed to get current target: %s";
     Logged.args := Some (Logged.ArgExn e) |}.
Definition error_generate (e : exn) : Logged.record :=
  {| Logged.levelname := Logged.ERROR;
     Logged.msg := "Failed to generate cache key: %s";
     Logged.args := Some (Logged.ArgExn e) |}.
Definition critical_main (e : exn) : Logged.record :=
  {| Logged.levelname := Logged.CRITICAL;
     Logged.msg := "Critical error during cache key generation: %s";
     Logged.args := Some (Logged.ArgExn e) |}.
Definition info_start : Logged.record :=
  {| Logged.levelname := Logged.INFO;
     Logged.msg := "Generating Triton cache key...";
     Logged.args := None |}.

(** What the two degradable queries leave in the log. *)
Definition target_log (w : World) : list Logged.record :=
  match query_current_target w with
  | Ok _ => []
  | Raise e => [error_target e]
  end.
Definition registry_log (w : World) : list Logged.record :=
  match query_env_registry w with
  | Raise e => if is_ImportError e then [warning_import e] else []
  | Ok _ => []
  end.

(* ===================================================================== *)
(** ** Tactics for monadic code *)
(* ===================================================================== *)

Ltac run := cbn [mbind result_bind Py.bind].
Ltac run_in H := cbn [mbind result_bind Py.bind] in H.

Ltac step H x Hx :=
  match type of H with
  | mbind _ ?m = Ok _ =>
      destruct m as [x|?] eqn:Hx; [run_in H | discriminate H]
  end.

Ltac bind_cases :=
  repeat (run;
          match goal with
          | |- context [mbind _ ?m] =>
              lazymatch m with
              | Ok _ => fail
              | Raise _ => fail
              | context [mbind] => fail
              | _ => destruct m
              end
          end);
  run.

(* ===================================================================== *)
(** ** Known answers *)
(* ===================================================================== *)

(** Known answers (FIPS 180-4 examples and the empty message). *)
Example sha256_empty :
  SHA256.hexdigest [] =
  lit "e3b0c44298fc1c149afbf4c8996fb92427ae41e4649b934ca495991b7852b855".
Proof. vm_compute. reflexivity. Qed.

Example sha256_abc :
  Py.encode (lit "abc") = Ok [97; 98; 99] /\
  SHA256.hexdigest [97; 98; 99] =
  lit "ba7816bf8f01cfea414140de5dae2223b00361a396177a9cb410ff61f20015ad".
Proof. vm_compute. auto. Qed.

Example sha256_two_blocks :
  (b ← Py.encode
         (lit "abcdbcdecdefdefgefghfghighijhijkijkljklmklmnlmnomnopnopq");
   Ok (SHA256.hexdigest b)) =
  Ok (lit "248d6a61d20638b8e5c026930c3e6039a33ce45964ff2167f6ecedd419db06c1").
Proof. vm_compute. reflexivity. Qed.

Example utf8_known :
  encode [0xE9; 0x20AC; 0x1F600] =
    Ok [0xC3; 0xA9; 0xE2; 0x82; 0xAC; 0xF0; 0x9F; 0x98; 0x80] /\
  encode [0x61; 0xD800] = Raise UnicodeEncodeError.
Proof. vm_compute. auto. Qed.

(** [json.dumps([["a", "\u00e9\n..."], ["b", "1"]])] escapes everything
    outside printable ASCII, with a surrogate pair beyond the BMP. *)
Example dumps_known :
  dumps (items_value [(lit "a", [0xE9; 10; 0x7F; 0x1F600]); (lit "b", lit "1")])
        None true =
  lit "[[" ++ dquote ++ lit "a" ++ dquote ++ lit ", " ++ dquote ++
  lit "\u00e9\n\u007f\ud83d\ude00" ++ dquote ++ lit "], [" ++
  dquote ++ lit "b" ++ dquote ++ lit ", " ++ dquote ++ lit "1" ++ dquote ++
  lit "]]" /\
  env_json [] = lit "[]" /\
  sha256_hex (env_json []) = Ok empty_env_digest /\
  sha256_hex sentinel = Ok sentinel_digest /\
  str_of_int (-12) = lit "-12".
Proof. vm_compute. auto 6. Qed.

Example sample_run :
  generate_triton_cache_key sample_world None = Ok (sample_key, sample_components).
Proof. vm_compute. reflexivity. Qed.

(* ===================================================================== *)
(** ** The result monad *)
(* ===================================================================== *)

Lemma bind_Ok {A B} (m : result A) (k : A -> result B) (b : B) :
  (x ← m; k x) = Ok b -> exists a, m = Ok a /\ k a = Ok b.
Proof. destruct m as [a|e]; [eauto | discriminate]. Qed.

Lemma bind_Raise {A B} (m : result A) (k : A -> result B) (e : exn) :
  (x ← m; k x) = Raise e -> m = Raise e \/ exists a, m = Ok a /\ k a = Raise e.
Proof. destruct m as [a|e']; [eauto | intros [= ->]; auto]. Qed.

Lemma try_reraise {A} (m : result A) :
  try_except m is_Exception (fun e => Raise e) = m.
Proof. destruct m; reflexivity. Qed.

Lemma sha256_hex_Ok (s d : str) :
  sha256_hex s = Ok d <-> exists data, utf8 s = Some data /\ d = SHA256.hexdigest data.
Proof.
  unfold sha256_hex, encode. destruct (utf8 s) as [data|]; cbn; split.
  - intros [= <-]. eauto.
  - intros (data' & [= <-] & ->). reflexivity.
  - discriminate.
  - intros (? & [=] & _).
Qed.

(* ===================================================================== *)
(** ** Digests are 64 lowercase hexadecimal characters *)
(* ===================================================================== *)

Lemma nibble_lt (x : N) : N.land x 15 < 16.
Proof.
  change 15 with (N.ones 4). rewrite N.land_ones.
  apply N.mod_lt. discriminate.
Qed.

Lemma hexdigit_lower (d : N) : d < 16 -> is_lower_hex (hexdigit d) = true.
Proof.
  intros Hd. unfold hexdigit, is_lower_hex.
  destruct (N.ltb_spec d 10).
  - apply orb_true_iff. left. apply andb_true_iff.
    split; apply N.leb_le; lia.
  - apply orb_true_iff. right. apply andb_true_iff.
    split; apply N.leb_le; lia.
Qed.

Lemma hex_length (n : nat) (x : N) : length (hex n x) = n.
Proof. unfold hex. rewrite length_map, length_rev. apply length_seq. Qed.

Lemma hex_lower (n : nat) (x : N) : forallb is_lower_hex (hex n x) = true.
Proof.
  unfold hex. apply forallb_forall. intros c Hc.
  apply in_map_iff in Hc. destruct Hc as (i & <- & _).
  apply hexdigit_lower, nibble_lt.
Qed.

Lemma add32_bounded (x y : N) : SHA256.add32 x y < SHA256.modulus.
Proof. apply N.mod_lt. discriminate. Qed.

Lemma compress_bounded (h : SHA256.words8) (block : list N) :
  bounded8 (SHA256.compress h block).
Proof.
  unfold SHA256.compress, SHA256.add8, bounded8.
  cbn [SHA256.wa SHA256.wb SHA256.wc SHA256.wd
       SHA256.we SHA256.wf SHA256.wg SHA256.wh].
  repeat split; apply add32_bounded.
Qed.

Lemma digest_words_bounded (msg : list N) : bounded8 (SHA256.digest_words msg).
Proof.
  unfold SHA256.digest_words.
  generalize (SHA256.blocks
                (length (SHA256.be_words (SHA256.pad msg)) / 16)
                (SHA256.be_words (SHA256.pad msg))).
  assert (H0 : bounded8 SHA256.H0) by (repeat split; reflexivity).
  revert H0. generalize SHA256.H0.
  intros h Hh l. revert h Hh.
  induction l as [|b l IH]; intros h Hh; cbn [fold_left]; [assumption|].
  apply IH, compress_bounded.
Qed.

Lemma hexdigest_hex64 (msg : list N) : hex64 (SHA256.hexdigest msg).
Proof.
  unfold hex64, SHA256.hexdigest.
  destruct (SHA256.digest_words msg) as [a b c d e f g h]. split.
  - rewrite !length_app, !hex_length. reflexivity.
  - rewrite !forallb_app, !hex_lower. reflexivity.
Qed.

Lemma sha256_hex_hex64 (s d : str) : sha256_hex s = Ok d -> hex64 d.
Proof.
  intros H. apply sha256_hex_Ok in H. destruct H as (data & _ & ->).
  apply hexdigest_hex64.
Qed.

(* ===================================================================== *)
(** ** [sorted] depends on the items only, not on their order *)
(* ===================================================================== *)

Section item_order.

Local Abbreviation lt := (@lexico (list N * list N) _).

Global Instance item_le_total : Total Sorting.item_le.
Proof.
  intros x y. unfold Sorting.item_le, Sorting.item_lt.
  destruct (trichotomy lt x y) as [H|[->|H]].
  - left. intros H'. apply (irreflexivity lt x). by trans y.
  - left. apply irreflexivity, _.
  - right. intros H'. apply (irreflexivity lt x). by trans y.
Qed.

Global Instance item_le_trans : Transitive Sorting.item_le.
Proof.
  intros x y z Hxy Hyz Hzx. unfold Sorting.item_le, Sorting.item_lt in *.
  destruct (trichotomy lt x y) as [H|[->|H]]; [|done..].
  apply Hyz. by trans x.
Qed.

Global Instance item_le_antisymm : AntiSymm (=) Sorting.item_le.
Proof.
  intros x y Hxy Hyx. unfold Sorting.item_le, Sorting.item_lt in *.
  by destruct (trichotomy lt x y) as [H|[->|H]].
Qed.

End item_order.

Lemma sorted_Sorted (d : list (list N * list N)) :
  Sorted Sorting.item_le (Sorting.sorted d).
Proof. apply Sorted_merge_sort, _. Qed.

Lemma sorted_Permutation (d : list (list N * list N)) : Sorting.sorted d ≡ₚ d.
Proof. apply merge_sort_Permutation. Qed.

Lemma sorted_order_independent (d1 d2 : list (list N * list N)) :
  d1 ≡ₚ d2 -> Sorting.sorted d1 = Sorting.sorted d2.
Proof.
  intros Hp. apply (Sorted_unique Sorting.item_le); try apply sorted_Sorted.
  by rewrite !sorted_Permutation.
Qed.

(* ===================================================================== *)
(** ** What can be encoded *)
(* ===================================================================== *)

Lemma is_ascii_app (a b : list N) :
  is_ascii (a ++ b) = is_ascii a && is_ascii b.
Proof. apply forallb_app. Qed.

Lemma utf8_app (a b : list N) :
  utf8 (a ++ b) =
  match utf8 a, utf8 b with
  | Some x, Some y => Some (x ++ y)
  | _, _ => None
  end.
Proof.
  induction a as [|c a IH]; cbn [utf8 app].
  - destruct (utf8 b); reflexivity.
  - rewrite IH. destruct (utf8_char c), (utf8 a), (utf8 b);
      rewrite <- ?app_assoc; reflexivity.
Qed.

Lemma utf8_ascii (s : list N) : is_ascii s = true -> utf8 s = Some s.
Proof.
  induction s as [|c s IH]; [reflexivity|].
  cbn [is_ascii forallb utf8]. intros H. apply andb_true_iff in H.
  destruct H as [Hc Hs]. rewrite (IH Hs). unfold utf8_char.
  change 0x80 with 128. rewrite Hc. reflexivity.
Qed.

Lemma encodable_app (a b : list N) : encodable a -> encodable b -> encodable (a ++ b).
Proof.
  intros [x Hx] [y Hy]. exists (x ++ y). by rewrite utf8_app, Hx, Hy.
Qed.

Lemma encodable_ascii (s : list N) : is_ascii s = true -> encodable s.
Proof. intros H. exists s. by apply utf8_ascii. Qed.

Lemma sha256_hex_encodable (s : list N) :
  encodable s -> exists d, sha256_hex s = Ok d /\ hex64 d.
Proof.
  intros [data H]. exists (SHA256.hexdigest data). split.
  - apply sha256_hex_Ok. eauto.
  - apply hexdigest_hex64.
Qed.

Lemma sha256_hex_Raise (s : list N) (e : exn) :
  sha256_hex s = Raise e -> e = UnicodeEncodeError /\ utf8 s = None.
Proof.
  unfold sha256_hex, encode. destruct (utf8 s); cbn; [discriminate|].
  intros [= <-]. auto.
Qed.

Lemma lower_hex_ascii (s : list N) : forallb is_lower_hex s = true -> is_ascii s = true.
Proof.
  unfold is_ascii. rewrite !forallb_forall. intros H c Hc.
  specialize (H c Hc). unfold is_lower_hex in H.
  apply N.ltb_lt. apply orb_true_iff in H.
  destruct H as [H|H]; apply andb_true_iff in H; destruct H as [_ H];
    apply N.leb_le in H; lia.
Qed.

Lemma hex64_ascii (s : list N) : hex64 s -> is_ascii s = true.
Proof. intros [_ H]. by apply lower_hex_ascii. Qed.

(** [json.dumps] with [ensure_ascii] yields ASCII text. *)
Lemma escape_char_ascii (c : N) : is_ascii (escape_char c) = true.
Proof.
  unfold escape_char.
  repeat match goal with
         | |- context [if ?b then _ else _] => destruct b eqn:?; try reflexivity
         end.
  - apply andb_true_iff in Heqb6. destruct Heqb6 as [_ H].
    apply N.leb_le in H. cbn. rewrite andb_true_r. apply N.ltb_lt. lia.
  - rewrite is_ascii_app. apply lower_hex_ascii, hex_lower.
  - rewrite !is_ascii_app, !(lower_hex_ascii _ (hex_lower _ _)). reflexivity.
Qed.

Lemma quote_ascii (s : list N) : is_ascii (quote s) = true.
Proof.
  unfold quote. rewrite !is_ascii_app. cbn. rewrite andb_true_r.
  induction s as [|c s IH]; [reflexivity|].
  cbn [List.map concat]. by rewrite is_ascii_app, escape_char_ascii.
Qed.

Lemma join_ascii (sep : list N) (parts : list (list N)) :
  is_ascii sep = true -> Forall (fun p => is_ascii p = true) parts ->
  is_ascii (join sep parts) = true.
Proof.
  intros Hsep. induction 1 as [|p ps Hp Hps IH]; [reflexivity|].
  cbn [join]. destruct ps as [|q ps]; [assumption|].
  by rewrite !is_ascii_app, Hp, Hsep, IH.
Qed.

Lemma container_ascii (level : nat) (opening closing : list N) (items : list (list N)) :
  is_ascii opening = true -> is_ascii closing = true ->
  Forall (fun p => is_ascii p = true) items ->
  is_ascii (container None level opening closing items) = true.
Proof.
  intros Ho Hc Hi. unfold container. destruct items as [|i items].
  - by rewrite is_ascii_app, Ho, Hc.
  - cbn [newline_indent item_separator]. 
    rewrite !is_ascii_app, Ho, Hc, join_ascii; done.
Qed.

Lemma env_json_ascii (d : list (list N * list N)) : is_ascii (env_json d) = true.
Proof.
  unfold env_json, dumps, items_value. cbn [dumps_at].
  apply container_ascii; [reflexivity..|].
  rewrite map_map. apply Forall_forall. intros p Hp.
  apply list_elem_of_In, in_map_iff in Hp. destruct Hp as ([k v] & <- & _).
  cbn [dumps_at List.map fst snd].
  apply container_ascii; [reflexivity..|].
  repeat constructor; apply quote_ascii.
Qed.

Lemma options_json_ascii (b : bool) :
  is_ascii (dumps (JDict (options_of b)) None true) = true.
Proof. destruct b; vm_compute; reflexivity. Qed.

(* ===================================================================== *)
(** ** The derivation as a function of what it gathers *)
(* ===================================================================== *)

Lemma generate_Ok (w : World) (src : option str) (key : str) (c : Components) :
  generate_triton_cache_key w src = Ok (key, c) ->
  exists tk bi env sh bh oh eh,
    triton_key w = Ok tk /\
    get_current_target w = Ok bi /\
    get_cache_invalidating_env_vars w = Ok env /\
    sha256_hex (or_else src placeholder) = Ok sh /\
    sha256_hex bi = Ok bh /\
    sha256_hex (dumps (JDict (options_of (debug_flag w))) None true) = Ok oh /\
    sha256_hex (env_json env) = Ok eh /\
    sha256_hex (join (lit "-") [tk; sh; bh; oh; eh]) = Ok key /\
    c = components_of tk (or_else src placeholder) bi (debug_flag w) env sh bh oh eh.
Proof.
  unfold generate_triton_cache_key. rewrite try_reraise. intros H.
  step H tk Htk. step H sh Hsh. step H bi Hbi. step H bh Hbh.
  step H oh Hoh. step H env Henv. step H eh Heh. step H k Hk.
  injection H as <- <-.
  unfold get_env_vars_for_cache in Henv.
  apply bind_Ok in Henv. destruct Henv as (env' & Henv & [= ->]).
  exists tk, bi, env, sh, bh, oh, eh. repeat split; assumption.
Qed.

Lemma generate_unfold (w : World) (src : option str) :
  generate_triton_cache_key w src =
  (tk ← triton_key w;
   sh ← sha256_hex (or_else src placeholder);
   bi ← get_current_target w;
   bh ← sha256_hex bi;
   oh ← sha256_hex (dumps (JDict (options_of (debug_flag w))) None true);
   env ← get_cache_invalidating_env_vars w;
   eh ← sha256_hex (env_json env);
   key ← sha256_hex (join (lit "-") [tk; sh; bh; oh; eh]);
   Ok (key, components_of tk (or_else src placeholder) bi (debug_flag w)
                          env sh bh oh eh)).
Proof.
  unfold generate_triton_cache_key. rewrite try_reraise.
  unfold get_env_vars_for_cache.
  destruct (get_cache_invalidating_env_vars w); reflexivity.
Qed.

Lemma get_current_target_total (w : World) :
  exists bi, get_current_target w = Ok bi.
Proof.
  unfold get_current_target.
  destruct (query_current_target w); cbn; eauto.
Qed.

Lemma get_current_target_sentinel (w : World) (e : exn) :
  query_current_target w = Raise e -> get_current_target w = Ok sentinel.
Proof. unfold get_current_target. intros ->. reflexivity. Qed.

Lemma env_vars_ImportError (w : World) (e : exn) :
  query_env_registry w = Raise e -> is_ImportError e = true ->
  get_cache_invalidating_env_vars w = Ok [].
Proof.
  unfold get_cache_invalidating_env_vars. intros -> He. cbn. by rewrite He.
Qed.

Lemma env_vars_Raise (w : World) (e : exn) :
  get_cache_invalidating_env_vars w = Raise e <->
  query_env_registry w = Raise e /\ is_ImportError e = false.
Proof.
  unfold get_cache_invalidating_env_vars.
  destruct (query_env_registry w) as [d|e']; cbn.
  - split; [discriminate | intros [[=] _]].
  - destruct (is_ImportError e') eqn:He.
    + split; [discriminate | intros [[= ->] H]; congruence].
    + split; [intros [= ->]; auto | intros [[= ->] _]; reflexivity].
Qed.

Lemma composite_encodable (tk sh bh oh eh : list N) :
  encodable tk -> hex64 sh -> hex64 bh -> hex64 oh -> hex64 eh ->
  encodable (join (lit "-") [tk; sh; bh; oh; eh]).
Proof.
  intros Htk Hsh Hbh Hoh Heh. cbn [join].
  apply encodable_app; [assumption|]. apply encodable_ascii.
  rewrite !is_ascii_app, (hex64_ascii _ Hsh), (hex64_ascii _ Hbh),
    (hex64_ascii _ Hoh), (hex64_ascii _ Heh).
  reflexivity.
Qed.

(** When the toolchain answers, the registry does not raise past its
    handler, and the gathered strings can be encoded, a key is returned. *)
Lemma generate_succeeds (w : World) (src : option str) (tk bi : list N)
    (env : list (list N * list N)) :
  triton_key w = Ok tk -> encodable tk ->
  encodable (or_else src placeholder) ->
  get_current_target w = Ok bi -> encodable bi ->
  get_cache_invalidating_env_vars w = Ok env ->
  exists key sh bh oh eh,
    sha256_hex bi = Ok bh /\
    sha256_hex (env_json env) = Ok eh /\
    generate_triton_cache_key w src =
      Ok (key, components_of tk (or_else src placeholder) bi (debug_flag w)
                             env sh bh oh eh).
Proof.
  intros Htk Etk Esrc Hbi Ebi Henv.
  destruct (sha256_hex_encodable _ Esrc) as (sh & Hsh & Xsh).
  destruct (sha256_hex_encodable _ Ebi) as (bh & Hbh & Xbh).
  destruct (sha256_hex_encodable _
              (encodable_ascii _ (options_json_ascii (debug_flag w))))
    as (oh & Hoh & Xoh).
  destruct (sha256_hex_encodable _ (encodable_ascii _ (env_json_ascii env)))
    as (eh & Heh & Xeh).
  destruct (sha256_hex_encodable _
              (composite_encodable tk sh bh oh eh Etk Xsh Xbh Xoh Xeh))
    as (key & Hkey & _).
  exists key, sh, bh, oh, eh. split; [assumption|]. split; [assumption|].
  rewrite generate_unfold, Htk. run. rewrite Hsh. run. rewrite Hbi. run.
  rewrite Hbh. run. rewrite Hoh. run. rewrite Henv. run. rewrite Heh. run.
  rewrite Hkey. reflexivity.
Qed.

(** Where a raised exception can come from. *)
Lemma generate_Raise (w : World) (src : option str) (e : exn) :
  generate_triton_cache_key w src = Raise e ->
  triton_key w = Raise e \/
  (query_env_registry w = Raise e /\ is_ImportError e = false) \/
  e = UnicodeEncodeError.
Proof.
  rewrite generate_unfold. intros H.
  apply bind_Raise in H. destruct H as [H | (tk & _ & H)]; [auto|].
  apply bind_Raise in H. destruct H as [H | (sh & _ & H)];
    [apply sha256_hex_Raise in H; tauto|].
  apply bind_Raise in H. destruct H as [H | (bi & _ & H)].
  { destruct (get_current_target_total w) as [bi Hbi]. congruence. }
  apply bind_Raise in H. destruct H as [H | (bh & _ & H)];
    [apply sha256_hex_Raise in H; tauto|].
  apply bind_Raise in H. destruct H as [H | (oh & _ & H)];
    [apply sha256_hex_Raise in H; tauto|].
  apply bind_Raise in H. destruct H as [H | (env & _ & H)];
    [apply env_vars_Raise in H; tauto|].
  apply bind_Raise in H. destruct H as [H | (eh & _ & H)];
    [apply sha256_hex_Raise in H; tauto|].
  apply bind_Raise in H. destruct H as [H | (key & _ & H)];
    [apply sha256_hex_Raise in H; tauto | discriminate].
Qed.

Lemma generate_with_env_vars (w : World) (d : list (list N * list N))
    (src : option str) :
  generate_triton_cache_key (with_env_vars w d) src =
  (tk ← triton_key w;
   sh ← sha256_hex (or_else src placeholder);
   bi ← get_current_target w;
   bh ← sha256_hex bi;
   oh ← sha256_hex (dumps (JDict (options_of (debug_flag w))) None true);
   eh ← sha256_hex (env_json d);
   key ← sha256_hex (join (lit "-") [tk; sh; bh; oh; eh]);
   Ok (key, components_of tk (or_else src placeholder) bi (debug_flag w)
                          d sh bh oh eh)).
Proof. rewrite generate_unfold. reflexivity. Qed.

(** The CLI: exit status 0 and the key on the last line when the derivation
    returns, empty output and exit status 1 when it raises. *)
Lemma main_success (w : World) (key : list N) (c : Components) :
  generate_triton_cache_key w None = Ok (key, c) ->
  main w false = (print (10 :: key), 0%Z) /\
  main w true = (breakdown c ++ print (10 :: key), 0%Z).
Proof. unfold main. intros ->. split; reflexivity. Qed.

Lemma main_failure (w : World) (e : exn) (verbose : bool) :
  generate_triton_cache_key w None = Raise e -> main w verbose = ([], 1%Z).
Proof. unfold main. intros ->. reflexivity. Qed.

(* ===================================================================== *)
(** ** Properties of the derivation *)
(* ===================================================================== *)

(** C1.  In every successful derivation the composite string is the five
    parts toolchain, source digest, backend digest, options digest and
    environment digest joined with ["-"], the toolchain fingerprint entering
    it as it is; the four other parts are the SHA-256 hexadecimal digests of
    their components, and the final key is the SHA-256 hexadecimal digest of
    the UTF-8 encoding of the composite string. *)
Theorem final_key_is_digest_of_composite
    (w : World) (src : option str) (key : str) (c : Components) :
  generate_triton_cache_key w src = Ok (key, c) ->
  triton_key w = Ok (comp_triton_key c) /\
  comp_final_composite c =
    join (lit "-")
      [ comp_triton_key c;
        source_hash (comp_source c);
        backend_hash (comp_backend c);
        options_hash (comp_options c);
        environment_hash (comp_environment c) ] /\
  sha256_hex (source_content (comp_source c)) = Ok (source_hash (comp_source c)) /\
  sha256_hex (backend_info (comp_backend c)) = Ok (backend_hash (comp_backend c)) /\
  sha256_hex (dumps (JDict (options_values (comp_options c))) None true)
    = Ok (options_hash (comp_options c)) /\
  sha256_hex (env_json (environment_variables (comp_environment c)))
    = Ok (environment_hash (comp_environment c)) /\
  sha256_hex (comp_final_composite c) = Ok key.
Proof.
  intros H. apply generate_Ok in H.
  destruct H as (tk & bi & env & sh & bh & oh & eh &
                 Htk & _ & _ & Hsh & Hbh & Hoh & Heh & Hkey & ->).
  cbn [components_of comp_triton_key comp_final_composite comp_source
       comp_backend comp_options comp_environment source_hash source_content
       backend_hash backend_info options_hash options_values
       environment_hash environment_variables].
  repeat split; assumption.
Qed.

Lemma final_key_is_digest_of_composite_witness :
  sha256_hex (comp_final_composite sample_components) = Ok sample_key.
Proof.
  apply (final_key_is_digest_of_composite sample_world None
           sample_key sample_components).
  vm_compute. reflexivity.
Defined.

(** C2.  The outcome of a derivation (final key and every component) is a
    function of the toolchain fingerprint, the [source_text] argument, the
    backend descriptor, the value of the debug toggle and the
    environment-variable mapping: two runs that agree on these return the
    same result. *)
Theorem derivation_deterministic (w1 w2 : World) (src : option str) :
  triton_key w1 = triton_key w2 ->
  get_current_target w1 = get_current_target w2 ->
  environ w1 !! lit "TRITON_DEBUG" = environ w2 !! lit "TRITON_DEBUG" ->
  get_cache_invalidating_env_vars w1 = get_cache_invalidating_env_vars w2 ->
  generate_triton_cache_key w1 src = generate_triton_cache_key w2 src.
Proof.
  intros Htk Hbi Hdbg Henv. rewrite !generate_unfold.
  assert (Hflag : debug_flag w1 = debug_flag w2)
    by (unfold debug_flag, getenv; rewrite Hdbg; reflexivity).
  rewrite Htk, Hbi, Hflag, Henv. reflexivity.
Qed.

Lemma derivation_deterministic_witness :
  generate_triton_cache_key no_registry_world None =
  generate_triton_cache_key (with_env_vars sample_world []) None.
Proof.
  apply (derivation_deterministic no_registry_world
           (with_env_vars sample_world []) None); vm_compute; reflexivity.
Defined.

(** C3, as the code has it.  In every successful derivation the recorded
    source content is [source_text] when it is supplied and not empty, and
    the placeholder ["dummy_source_content"] when it is absent or empty; the
    recorded digest is the SHA-256 hexadecimal digest of the UTF-8 encoding
    of the recorded content. *)
Theorem source_component_digest
    (w : World) (src : option str) (key : str) (c : Components) :
  generate_triton_cache_key w src = Ok (key, c) ->
  (forall s, src = Some s -> s <> [] -> source_content (comp_source c) = s) /\
  (src = None \/ src = Some [] -> source_content (comp_source c) = placeholder) /\
  exists data,
    utf8 (source_content (comp_source c)) = Some data /\
    source_hash (comp_source c) = SHA256.hexdigest data.
Proof.
  intros H. apply generate_Ok in H.
  destruct H as (tk & bi & env & sh & bh & oh & eh &
                 _ & _ & _ & Hsh & _ & _ & _ & _ & ->).
  cbn [components_of comp_source source_hash source_content].
  split; [|split].
  - intros s -> Hs. destruct s; [contradiction | reflexivity].
  - intros [-> | ->]; reflexivity.
  - apply sha256_hex_Ok. exact Hsh.
Qed.

Lemma source_component_digest_witness :
  exists data,
    utf8 (source_content (comp_source sample_components)) = Some data /\
    source_hash (comp_source sample_components) = SHA256.hexdigest data.
Proof.
  apply (source_component_digest sample_world None sample_key sample_components).
  vm_compute. reflexivity.
Defined.

(** C3 as stated fails for the empty string: it is supplied, yet the digest
    recorded is the placeholder's, not the digest of the empty byte
    string. *)
Lemma source_component_digest_counterexample :
  exists key c,
    generate_triton_cache_key sample_world (Some []) = Ok (key, c) /\
    utf8 [] = Some [] /\
    source_content (comp_source c) <> [] /\
    source_hash (comp_source c) <> SHA256.hexdigest [].
Proof.
  exists sample_key, sample_components.
  split; [vm_compute; reflexivity|].
  split; [reflexivity|].
  split; vm_compute; discriminate.
Qed.

(** C4.  In every successful derivation the options mapping is
    [{"num_warps": 4, "num_stages": 3, "debug": b}] where [b] is true exactly
    when [TRITON_DEBUG] is set to ["1"]; its serialisation with sorted keys
    is [{"debug": b, "num_stages": 3, "num_warps": 4}] and the options
    digest is the SHA-256 hexadecimal digest of that text. *)
Theorem options_component
    (w : World) (src : option str) (key : str) (c : Components) :
  generate_triton_cache_key w src = Ok (key, c) ->
  exists b : bool,
    options_values (comp_options c) = options_of b /\
    (b = true <-> environ w !! lit "TRITON_DEBUG" = Some (lit "1")) /\
    dumps (JDict (options_values (comp_options c))) None true = options_json b /\
    sha256_hex (options_json b) = Ok (options_hash (comp_options c)).
Proof.
  intros H. apply generate_Ok in H.
  destruct H as (tk & bi & env & sh & bh & oh & eh &
                 _ & _ & _ & _ & _ & Hoh & _ & _ & ->).
  cbn [components_of comp_options options_hash options_values].
  exists (debug_flag w).
  assert (Hjson : forall b, dumps (JDict (options_of b)) None true = options_json b)
    by (intros []; vm_compute; reflexivity).
  split; [reflexivity|]. split; [|split].
  - unfold debug_flag, getenv. rewrite bool_decide_eq_true.
    destruct (environ w !! lit "TRITON_DEBUG") as [v|]; cbn.
    + split; [intros ->; reflexivity | intros [= ->]; reflexivity].
    + split; [intros [=] | discriminate].
  - apply Hjson.
  - rewrite <- Hjson. exact Hoh.
Qed.

Lemma options_component_witness :
  exists b : bool,
    options_values (comp_options sample_components) = options_of b /\
    (b = true <-> environ sample_world !! lit "TRITON_DEBUG" = Some (lit "1")) /\
    dumps (JDict (options_values (comp_options sample_components))) None true
      = options_json b /\
    sha256_hex (options_json b) = Ok (options_hash (comp_options sample_components)).
Proof.
  apply (options_component sample_world None sample_key sample_components).
  vm_compute. reflexivity.
Defined.

(** C5.  Two environment-variable mappings holding the same (name, value)
    pairs in different orders have the same serialisation and the same
    digest, and, the other inputs being fixed, give the same final key. *)
Theorem env_digest_order_independent
    (w : World) (src : option str) (d1 d2 : list (list N * list N)) :
  d1 ≡ₚ d2 ->
  env_json d1 = env_json d2 /\
  sha256_hex (env_json d1) = sha256_hex (env_json d2) /\
  env_digest (generate_triton_cache_key (with_env_vars w d1) src) =
    env_digest (generate_triton_cache_key (with_env_vars w d2) src) /\
  final_key (generate_triton_cache_key (with_env_vars w d1) src) =
    final_key (generate_triton_cache_key (with_env_vars w d2) src).
Proof.
  intros Hp.
  assert (Hj : env_json d1 = env_json d2)
    by (unfold env_json; rewrite (sorted_order_independent d1 d2 Hp); reflexivity).
  split; [assumption|]. split; [by rewrite Hj|].
  rewrite !generate_with_env_vars, Hj.
  unfold env_digest, final_key, map_result.
  split; bind_cases; reflexivity.
Qed.

Lemma env_digest_order_independent_witness :
  env_json [(lit "B", lit "1"); (lit "A", lit "x")] =
  env_json [(lit "A", lit "x"); (lit "B", lit "1")].
Proof.
  apply (env_digest_order_independent sample_world None
           [(lit "B", lit "1"); (lit "A", lit "x")]
           [(lit "A", lit "x"); (lit "B", lit "1")]).
  apply perm_swap.
Defined.

(** C6, as the code has it.  If the registry query fails with an
    [ImportError], the derivation does not abort on that account: the empty
    mapping is substituted, the outcome is that of a run whose registry
    answers the empty mapping, and a key is returned whenever the toolchain
    answers and the gathered strings can be encoded.  Any other exception
    raised by the query leaves [get_cache_invalidating_env_vars] uncaught. *)
Theorem registry_import_error_degrades
    (w : World) (src : option str) (e : exn) :
  query_env_registry w = Raise e ->
  (is_ImportError e = true ->
     get_cache_invalidating_env_vars w = Ok [] /\
     generate_triton_cache_key w src =
       generate_triton_cache_key (with_env_vars w []) src /\
     forall tk bi,
       triton_key w = Ok tk -> encodable tk ->
       encodable (or_else src placeholder) ->
       get_current_target w = Ok bi -> encodable bi ->
       exists key c,
         generate_triton_cache_key w src = Ok (key, c) /\
         environment_variables (comp_environment c) = [] /\
         environment_hash (comp_environment c) = empty_env_digest) /\
  (is_ImportError e = false ->
     get_cache_invalidating_env_vars w = Raise e).
Proof.
  intros Hq. split.
  - intros He. pose proof (env_vars_ImportError w e Hq He) as Henv.
    split; [assumption|]. split.
    + rewrite generate_with_env_vars, generate_unfold, Henv.
      bind_cases; reflexivity.
    + intros tk bi Htk Etk Esrc Hbi Ebi.
      destruct (generate_succeeds w src tk bi [] Htk Etk Esrc Hbi Ebi Henv)
        as (key & sh & bh & oh & eh & _ & Heh & Hgen).
      assert (Hd : sha256_hex (env_json []) = Ok empty_env_digest)
        by (vm_compute; reflexivity).
      rewrite Hd in Heh. injection Heh as <-.
      eexists _, _. split; [exact Hgen|]. split; reflexivity.
  - intros He. apply env_vars_Raise. auto.
Qed.

Lemma registry_import_error_degrades_witness :
  get_cache_invalidating_env_vars no_registry_world = Ok [] /\
  generate_triton_cache_key no_registry_world None =
    generate_triton_cache_key (with_env_vars no_registry_world []) None /\
  exists key c,
    generate_triton_cache_key no_registry_world None = Ok (key, c) /\
    environment_variables (comp_environment c) = [] /\
    environment_hash (comp_environment c) = empty_env_digest.
Proof.
  destruct (registry_import_error_degrades no_registry_world None
              ModuleNotFoundError) as [H _]; [reflexivity|].
  destruct H as (H1 & H2 & H3); [reflexivity|].
  split; [assumption|]. split; [assumption|].
  apply (H3 (lit "3.2.0-abc") (lit "cuda-sm90-32")).
  - reflexivity.
  - eexists. vm_compute. reflexivity.
  - eexists. vm_compute. reflexivity.
  - reflexivity.
  - eexists. vm_compute. reflexivity.
Defined.

(** C6 as stated fails when the query raises something other than an
    [ImportError]: the exception travels up and no key is returned, whereas
    the run with an empty registry returns one. *)
Lemma registry_import_error_degrades_counterexample :
  query_env_registry broken_registry_world = Raise (OtherException "RuntimeError") /\
  generate_triton_cache_key broken_registry_world None =
    Raise (OtherException "RuntimeError") /\
  exists key c,
    generate_triton_cache_key (with_env_vars broken_registry_world []) None =
      Ok (key, c).
Proof.
  split; [reflexivity|]. split; [vm_compute; reflexivity|].
  destruct (generate_triton_cache_key (with_env_vars broken_registry_world []) None)
    as [[key c]|e] eqn:E; [eauto|].
  vm_compute in E. discriminate.
Qed.

(** C7.  If the driver query raises, whatever the exception,
    [get_current_target] returns the sentinel ["unknown-backend-0-0"]
    instead of raising; the derivation then returns a key whenever the
    toolchain and the registry answer and the toolchain key and source text
    can be encoded, with the sentinel as backend descriptor and the SHA-256
    digest of the sentinel as backend digest. *)
Theorem driver_failure_degrades (w : World) (src : option str) (e : exn) :
  query_current_target w = Raise e ->
  get_current_target w = Ok sentinel /\
  sha256_hex sentinel = Ok sentinel_digest /\
  forall tk env,
    triton_key w = Ok tk -> encodable tk ->
    encodable (or_else src placeholder) ->
    get_cache_invalidating_env_vars w = Ok env ->
    exists key c,
      generate_triton_cache_key w src = Ok (key, c) /\
      backend_info (comp_backend c) = sentinel /\
      backend_hash (comp_backend c) = sentinel_digest.
Proof.
  intros Hq. pose proof (get_current_target_sentinel w e Hq) as Hbi.
  assert (Hd : sha256_hex sentinel = Ok sentinel_digest)
    by (vm_compute; reflexivity).
  split; [assumption|]. split; [assumption|].
  intros tk env Htk Etk Esrc Henv.
  assert (Ebi : encodable sentinel) by (apply encodable_ascii; reflexivity).
  destruct (generate_succeeds w src tk sentinel env Htk Etk Esrc Hbi Ebi Henv)
    as (key & sh & bh & oh & eh & Hbh & _ & Hgen).
  rewrite Hd in Hbh. injection Hbh as <-.
  eexists _, _. split; [exact Hgen|]. split; reflexivity.
Qed.

Lemma driver_failure_degrades_witness :
  get_current_target no_driver_world = Ok sentinel /\
  exists key c,
    generate_triton_cache_key no_driver_world None = Ok (key, c) /\
    backend_info (comp_backend c) = sentinel /\
    backend_hash (comp_backend c) = sentinel_digest.
Proof.
  destruct (driver_failure_degrades no_driver_world None
              (OtherException "RuntimeError")) as (H1 & _ & H2);
    [reflexivity|].
  split; [assumption|].
  apply (H2 (lit "3.2.0-abc") [(lit "B", lit "1"); (lit "A", lit "x")]).
  - reflexivity.
  - eexists. vm_compute. reflexivity.
  - eexists. vm_compute. reflexivity.
  - reflexivity.
Defined.

(** C8, as the code has it.  If the toolchain-fingerprint query raises,
    the derivation raises the same exception instead of returning a key, and
    the CLI writes nothing to standard output and exits with status 1.  An
    exception that reaches the top level is the toolchain's, or one raised
    by the registry query that is not an [ImportError], or a
    [UnicodeEncodeError]; a driver failure or a registry [ImportError] never
    propagates. *)
Theorem toolchain_failure_is_fatal (w : World) (src : option str) (e : exn) :
  (triton_key w = Raise e ->
     generate_triton_cache_key w src = Raise e /\
     forall verbose, main w verbose = ([], 1%Z)) /\
  (generate_triton_cache_key w src = Raise e ->
     triton_key w = Raise e \/
     (query_env_registry w = Raise e /\ is_ImportError e = false) \/
     e = UnicodeEncodeError).
Proof.
  split.
  - intros Htk.
    assert (H : forall s, generate_triton_cache_key w s = Raise e)
      by (intros s; rewrite generate_unfold, Htk; reflexivity).
    split; [apply H|].
    intros verbose. apply (main_failure w e), H.
  - apply generate_Raise.
Qed.

Lemma toolchain_failure_is_fatal_witness :
  generate_triton_cache_key no_toolchain_world None =
    Raise (OtherException "AttributeError") /\
  forall verbose, main no_toolchain_world verbose = ([], 1%Z).
Proof.
  apply (toolchain_failure_is_fatal no_toolchain_world None
           (OtherException "AttributeError")).
  reflexivity.
Defined.

(** C8 as stated fails: the toolchain failure is not the only one that
    reaches the top level.  Here the toolchain answers and the registry
    query raises a [RuntimeError]; the derivation raises it and the CLI
    exits with status 1. *)
Lemma toolchain_failure_is_fatal_counterexample :
  triton_key broken_registry_world = Ok (lit "3.2.0-abc") /\
  query_env_registry broken_registry_world = Raise (OtherException "RuntimeError") /\
  generate_triton_cache_key broken_registry_world None =
    Raise (OtherException "RuntimeError") /\
  main broken_registry_world false = ([], 1%Z).
Proof. vm_compute. auto. Qed.

(** C9.  In every successful derivation the final key and the four
    component digests are lowercase hexadecimal strings of exactly 64
    characters. *)
Theorem digests_are_hex64
    (w : World) (src : option str) (key : str) (c : Components) :
  generate_triton_cache_key w src = Ok (key, c) ->
  hex64 key /\
  hex64 (source_hash (comp_source c)) /\
  hex64 (backend_hash (comp_backend c)) /\
  hex64 (options_hash (comp_options c)) /\
  hex64 (environment_hash (comp_environment c)).
Proof.
  intros H. apply generate_Ok in H.
  destruct H as (tk & bi & env & sh & bh & oh & eh &
                 _ & _ & _ & Hsh & Hbh & Hoh & Heh & Hkey & ->).
  cbn [components_of comp_source comp_backend comp_options comp_environment
       source_hash backend_hash options_hash environment_hash].
  split; [|split; [|split; [|split]]]; eapply sha256_hex_hex64; eassumption.
Qed.

Lemma digests_are_hex64_witness : hex64 sample_key.
Proof.
  apply (digests_are_hex64 sample_world None sample_key sample_components).
  vm_compute. reflexivity.
Defined.

(** C10.  The empty string as [source_text] gives the same outcome as an
    absent [source_text]: same recorded content, same digests, same key. *)
Theorem empty_source_is_absent_source (w : World) :
  generate_triton_cache_key w (Some []) = generate_triton_cache_key w None.
Proof. reflexivity. Qed.

(* ===================================================================== *)
(** ** When the derivation returns, and what the composite determines *)
(* ===================================================================== *)

Lemma encodable_app_inv (a b : list N) :
  encodable (a ++ b) -> encodable a /\ encodable b.
Proof.
  intros [x Hx]. rewrite utf8_app in Hx.
  destruct (utf8 a) as [xa|] eqn:Ha, (utf8 b) as [xb|] eqn:Hb;
    try discriminate.
  split; [exists xa | exists xb]; assumption.
Qed.

Lemma sha256_hex_Ok_encodable (s d : list N) : sha256_hex s = Ok d -> encodable s.
Proof.
  intros H. apply sha256_hex_Ok in H. destruct H as (data & H & _).
  exists data. exact H.
Qed.

Lemma env_vars_Ok (w : World) :
  (exists env, get_cache_invalidating_env_vars w = Ok env) <->
  (forall e, query_env_registry w = Raise e -> is_ImportError e = true).
Proof.
  unfold get_cache_invalidating_env_vars.
  destruct (query_env_registry w) as [d|e]; cbn.
  - split; [intros _ e [=] | eauto].
  - destruct (is_ImportError e) eqn:He; cbn; split.
    + intros _ e' [= <-]. exact He.
    + eauto.
    + intros [env [=]].
    + intros H. specialize (H e eq_refl). congruence.
Qed.

(** X1.  The derivation returns a key exactly when the toolchain answers
    with a key that can be encoded, the source text (or the placeholder)
    and the backend descriptor can be encoded, and the registry query
    raises nothing but an [ImportError]. *)
Theorem generate_returns_iff (w : World) (src : option str) :
  (exists key c, generate_triton_cache_key w src = Ok (key, c)) <->
  (exists tk,
     triton_key w = Ok tk /\ encodable tk /\
     encodable (or_else src placeholder) /\
     (forall bi, get_current_target w = Ok bi -> encodable bi) /\
     (forall e, query_env_registry w = Raise e -> is_ImportError e = true)).
Proof.
  split.
  - intros (key & c & H). apply generate_Ok in H.
    destruct H as (tk & bi & env & sh & bh & oh & eh &
                   Htk & Hbi & Henv & Hsh & Hbh & _ & _ & Hkey & _).
    exists tk. split; [assumption|].
    apply sha256_hex_Ok_encodable in Hkey. cbn [join] in Hkey.
    apply encodable_app_inv in Hkey. split; [tauto|].
    split; [eapply sha256_hex_Ok_encodable; eassumption|]. split.
    + intros bi' Hbi'. rewrite Hbi in Hbi'. injection Hbi' as <-.
      eapply sha256_hex_Ok_encodable; eassumption.
    + apply env_vars_Ok. eauto.
  - intros (tk & Htk & Etk & Esrc & Ebi & Hreg).
    destruct (get_current_target_total w) as [bi Hbi].
    apply env_vars_Ok in Hreg. destruct Hreg as [env Henv].
    destruct (generate_succeeds w src tk bi env Htk Etk Esrc Hbi (Ebi bi Hbi) Henv)
      as (key & sh & bh & oh & eh & _ & _ & H).
    eauto.
Qed.

Lemma generate_returns_iff_witness :
  exists key c, generate_triton_cache_key no_registry_world None = Ok (key, c).
Proof.
  apply (generate_returns_iff no_registry_world None).
  exists (lit "3.2.0-abc"). split; [reflexivity|].
  split; [eexists; vm_compute; reflexivity|].
  split; [eexists; vm_compute; reflexivity|]. split.
  - intros bi H. vm_compute in H. injection H as <-.
    eexists. vm_compute. reflexivity.
  - intros e H. vm_compute in H. injection H as <-. reflexivity.
Defined.

(** X2.  The composite string is unambiguous: the four digests have a
    fixed width, so two successful derivations with the same composite
    string have the same toolchain key and the same four digests, although
    the toolchain key enters unhashed and may itself contain ["-"]. *)
Theorem composite_unambiguous
    (w1 w2 : World) (src1 src2 : option str) (k1 k2 : str) (c1 c2 : Components) :
  generate_triton_cache_key w1 src1 = Ok (k1, c1) ->
  generate_triton_cache_key w2 src2 = Ok (k2, c2) ->
  comp_final_composite c1 = comp_final_composite c2 ->
  comp_triton_key c1 = comp_triton_key c2 /\
  source_hash (comp_source c1) = source_hash (comp_source c2) /\
  backend_hash (comp_backend c1) = backend_hash (comp_backend c2) /\
  options_hash (comp_options c1) = options_hash (comp_options c2) /\
  environment_hash (comp_environment c1) = environment_hash (comp_environment c2) /\
  k1 = k2.
Proof.
  intros H1 H2. apply generate_Ok in H1, H2.
  destruct H1 as (tk1 & bi1 & env1 & sh1 & bh1 & oh1 & eh1 &
                  _ & _ & _ & Hsh1 & Hbh1 & Hoh1 & Heh1 & Hk1 & ->).
  destruct H2 as (tk2 & bi2 & env2 & sh2 & bh2 & oh2 & eh2 &
                  _ & _ & _ & Hsh2 & Hbh2 & Hoh2 & Heh2 & Hk2 & ->).
  cbn [components_of comp_triton_key comp_final_composite comp_source
       comp_backend comp_options comp_environment source_hash
       backend_hash options_hash environment_hash].
  intros Hc. rewrite Hc in Hk1. rewrite Hk1 in Hk2. injection Hk2 as <-.
  clear Hk1. cbn [join] in Hc.
  apply sha256_hex_hex64 in Hsh1, Hsh2, Hbh1, Hbh2, Hoh1, Hoh2, Heh1, Heh2.
  destruct Hsh1 as [Lsh1 _], Hsh2 as [Lsh2 _], Hbh1 as [Lbh1 _],
    Hbh2 as [Lbh2 _], Hoh1 as [Loh1 _], Hoh2 as [Loh2 _],
    Heh1 as [Leh1 _], Heh2 as [Leh2 _].
  apply app_inj_2 in Hc;
    [|rewrite !length_app, Lsh1, Lsh2, Lbh1, Lbh2, Loh1, Loh2, Leh1, Leh2;
      reflexivity].
  destruct Hc as [-> Hc]. injection Hc as Hc.
  apply app_inj_1 in Hc; [|congruence]. destruct Hc as [-> Hc].
  injection Hc as Hc.
  apply app_inj_1 in Hc; [|congruence]. destruct Hc as [-> Hc].
  injection Hc as Hc.
  apply app_inj_1 in Hc; [|congruence]. destruct Hc as [-> Hc].
  injection Hc as ->. repeat split; reflexivity.
Qed.

Lemma composite_unambiguous_witness :
  comp_triton_key sample_components = comp_triton_key sample_components /\
  sample_key = sample_key.
Proof.
  destruct (composite_unambiguous sample_world sample_world None (Some [])
              sample_key sample_key sample_components sample_components)
    as (H & _ & _ & _ & _ & H'); try (vm_compute; reflexivity).
  split; assumption.
Defined.

(* ===================================================================== *)
(** ** The debug toggle and the process environment *)
(* ===================================================================== *)

Lemma debug_flag_spec (w : World) : debug_flag w = true <-> debug_on (environ w).
Proof.
  unfold debug_flag, debug_on, getenv. rewrite bool_decide_eq_true.
  destruct (environ w !! lit "TRITON_DEBUG") as [v|]; cbn.
  - split; [intros ->; reflexivity | intros [= ->]; reflexivity].
  - split; [intros [=] | discriminate].
Qed.

Lemma generate_ext (w1 w2 : World) (src : option str) :
  triton_key w1 = triton_key w2 ->
  get_current_target w1 = get_current_target w2 ->
  debug_flag w1 = debug_flag w2 ->
  get_cache_invalidating_env_vars w1 = get_cache_invalidating_env_vars w2 ->
  generate_triton_cache_key w1 src = generate_triton_cache_key w2 src.
Proof.
  intros Htk Hbi Hflag Henv. rewrite !generate_unfold.
  rewrite Htk, Hbi, Hflag, Henv. reflexivity.
Qed.

(** X3.  The options digest takes one of two known values, chosen by the
    debug toggle alone: one when [TRITON_DEBUG] is ["1"], another in every
    other case; the two differ, so flipping the toggle changes the options
    digest. *)
Theorem options_digest_two_values
    (w : World) (src : option str) (key : str) (c : Components) :
  generate_triton_cache_key w src = Ok (key, c) ->
  (debug_on (environ w) -> options_hash (comp_options c) = debug_on_digest) /\
  (~ debug_on (environ w) -> options_hash (comp_options c) = debug_off_digest) /\
  debug_on_digest <> debug_off_digest.
Proof.
  intros H. apply generate_Ok in H.
  destruct H as (tk & bi & env & sh & bh & oh & eh &
                 _ & _ & _ & _ & _ & Hoh & _ & _ & ->).
  cbn [components_of comp_options options_hash].
  pose proof (debug_flag_spec w) as Hflag.
  destruct (debug_flag w); vm_compute in Hoh; injection Hoh as <-.
  - split; [reflexivity|]. split; [|vm_compute; discriminate].
    intros Hn. exfalso. apply Hn, Hflag. reflexivity.
  - split; [|split; [reflexivity | vm_compute; discriminate]].
    intros Hd. apply Hflag in Hd. discriminate.
Qed.

Lemma options_digest_two_values_witness :
  options_hash (comp_options sample_components) = debug_on_digest.
Proof.
  destruct (options_digest_two_values sample_world None
              sample_key sample_components) as (H & _ & _).
  - vm_compute. reflexivity.
  - apply H. vm_compute. reflexivity.
Defined.



(* ===================================================================== *)
(** ** The command line *)
(* ===================================================================== *)

Lemma main_inv (w : World) (verbose : bool) :
  (exists key c,
     generate_triton_cache_key w None = Ok (key, c) /\
     main w verbose =
       ((if verbose then breakdown c else []) ++ print (10 :: key), 0%Z)) \/
  (exists e,
     generate_triton_cache_key w None = Raise e /\
     main w verbose = ([], 1%Z)).
Proof.
  unfold main.
  destruct (generate_triton_cache_key w None) as [[key c]|e]; [left | right].
  - exists key, c. split; reflexivity.
  - exists e. split; reflexivity.
Qed.




(** X7.  The CLI never passes a source text, so every key it prints is
    derived from the placeholder: in each successful run the source
    component is the text ["dummy_source_content"] with the same digest,
    whatever the toolchain, the driver, the registry and the environment. *)
Theorem main_source_is_placeholder (w : World) (verbose : bool) :
  snd (main w verbose) = 0%Z ->
  exists key c,
    generate_triton_cache_key w None = Ok (key, c) /\
    fst (main w verbose) =
      (if verbose then breakdown c else []) ++ print (10 :: key) /\
    comp_source c =
      {| source_content := placeholder; source_hash := placeholder_digest |}.
Proof.
  intros Hst.
  destruct (main_inv w verbose) as [(key & c & Hg & Hm) | (e & Hg & Hm)];
    [|rewrite Hm in Hst; discriminate].
  exists key, c. split; [assumption|]. split; [rewrite Hm; reflexivity|].
  apply generate_Ok in Hg.
  destruct Hg as (tk & bi & env & sh & bh & oh & eh &
                  _ & _ & _ & Hsh & _ & _ & _ & _ & ->).
  cbn [components_of comp_source]. cbn [or_else] in Hsh.
  vm_compute in Hsh. injection Hsh as <-. reflexivity.
Qed.

Lemma main_source_is_placeholder_witness :
  exists key c,
    generate_triton_cache_key no_driver_world None = Ok (key, c) /\
    fst (main no_driver_world false) = [] ++ print (10 :: key) /\
    comp_source c =
      {| source_content := placeholder; source_hash := placeholder_digest |}.
Proof.
  apply (main_source_is_placeholder no_driver_world false).
  vm_compute. reflexivity.
Defined.

(* ===================================================================== *)
(** ** [format_component] *)
(* ===================================================================== *)

Lemma is_ascii_lit_String (a : ascii) (s : string) :
  is_ascii (lit (String a s)) = (N_of_ascii a <? 128) && is_ascii (lit s).
Proof. reflexivity. Qed.

Lemma lit_uint_ascii (d : Decimal.uint) :
  is_ascii (lit (NilEmpty.string_of_uint d)) = true.
Proof.
  induction d; cbn [NilEmpty.string_of_uint]; [reflexivity|..];
    rewrite is_ascii_lit_String, IHd; reflexivity.
Qed.

Lemma str_of_int_ascii (z : Z) : is_ascii (str_of_int z) = true.
Proof.
  unfold str_of_int, NilZero.string_of_int, NilZero.string_of_uint.
  destruct (Z.to_int z) as [d|d].
  - destruct d; [reflexivity | apply (lit_uint_ascii (_ _))..].
  - rewrite is_ascii_lit_String.
    destruct d; [reflexivity | apply (lit_uint_ascii (_ _))..].
Qed.

Lemma newline_indent_ascii (indent : option nat) (level : nat) :
  is_ascii (newline_indent indent level) = true.
Proof.
  destruct indent as [n|]; [|reflexivity]. cbn.
  induction (n * level)%nat; [reflexivity | assumption].
Qed.

Lemma item_separator_ascii (indent : option nat) :
  is_ascii (item_separator indent) = true.
Proof. destruct indent; reflexivity. Qed.

Lemma container_ascii_at (indent : option nat) (level : nat)
    (opening closing : list N) (items : list (list N)) :
  is_ascii opening = true -> is_ascii closing = true ->
  Forall (fun p => is_ascii p = true) items ->
  is_ascii (container indent level opening closing items) = true.
Proof.
  intros Ho Hc Hi. unfold container. destruct items as [|i items].
  - by rewrite is_ascii_app, Ho, Hc.
  - rewrite !is_ascii_app, Ho, Hc, !newline_indent_ascii, join_ascii;
      [reflexivity | | assumption].
    by rewrite is_ascii_app, item_separator_ascii, newline_indent_ascii.
Qed.

Lemma dumps_at_ascii :
  forall (v : Json.value) (indent : option nat) (sort_keys : bool) (level : nat),
    is_ascii (dumps_at indent sort_keys level v) = true.
Proof.
  fix IH 1. intros [b|z|s|l|d] indent sort_keys level; cbn [dumps_at].
  - destruct b; reflexivity.
  - apply str_of_int_ascii.
  - apply quote_ascii.
  - apply container_ascii_at; [reflexivity..|].
    induction l as [|x l IHl]; constructor; [apply IH | exact IHl].
  - apply container_ascii_at; [reflexivity..|].
    assert (Hr : Forall (fun kv : list N * list N => is_ascii (snd kv) = true)
                   (List.map (fun kv : list N * Json.value =>
                                match kv with
                                | (k, x) => (k, dumps_at indent sort_keys (S level) x)
                                end) d)).
    { induction d as [|[k x] d IHd]; constructor; [apply IH | exact IHd]. }
    assert (Hs : Forall (fun kv : list N * list N => is_ascii (snd kv) = true)
                   (if sort_keys
                    then merge_sort Sorting.key_le
                           (List.map (fun kv : list N * Json.value =>
                                        match kv with
                                        | (k, x) =>
                                            (k, dumps_at indent sort_keys (S level) x)
                                        end) d)
                    else List.map (fun kv : list N * Json.value =>
                                     match kv with
                                     | (k, x) =>
                                         (k, dumps_at indent sort_keys (S level) x)
                                     end) d)).
    { destruct sort_keys; [|exact Hr]. by rewrite merge_sort_Permutation. }
    revert Hs. generalize (if sort_keys
                    then merge_sort Sorting.key_le
                           (List.map (fun kv : list N * Json.value =>
                                        match kv with
                                        | (k, x) =>
                                            (k, dumps_at indent sort_keys (S level) x)
                                        end) d)
                    else List.map (fun kv : list N * Json.value =>
                                     match kv with
                                     | (k, x) =>
                                         (k, dumps_at indent sort_keys (S level) x)
                                     end) d).
    clear. intros items Hs. induction Hs as [|[k r] items Hr _ IHs]; constructor.
    + cbn [fst snd] in *. by rewrite !is_ascii_app, quote_ascii, Hr.
    + exact IHs.
Qed.

(** X8.  For a dict, [format_component] returns ASCII text only, whatever
    code points the keys and values hold: everything outside printable
    ASCII is escaped. *)
Theorem format_component_dict_ascii (d : list (list N * Json.value)) :
  is_ascii (format_component (CDict d)) = true.
Proof. apply dumps_at_ascii. Qed.

Global Instance key_le_total : Total Sorting.key_le.
Proof.
  intros x y. unfold Sorting.key_le, Sorting.str_lt.
  destruct (trichotomy (@lexico (list N) _) (fst x) (fst y)) as [H|[H|H]].
  - left. intros H'. apply (irreflexivity (@lexico (list N) _) (fst x)).
    by trans (fst y).
  - left. rewrite H. apply irreflexivity, _.
  - right. intros H'. apply (irreflexivity (@lexico (list N) _) (fst x)).
    by trans (fst y).
Qed.

Global Instance key_le_trans : Transitive Sorting.key_le.
Proof.
  intros x y z Hxy Hyz Hzx. unfold Sorting.key_le, Sorting.str_lt in *.
  destruct (trichotomy (@lexico (list N) _) (fst x) (fst y)) as [H|[H|H]];
    [|congruence|done].
  apply Hyz. by trans (fst x).
Qed.

Lemma key_le_antisymm (x y : list N * list N) :
  Sorting.key_le x y -> Sorting.key_le y x -> fst x = fst y.
Proof.
  unfold Sorting.key_le, Sorting.str_lt. intros Hxy Hyx.
  by destruct (trichotomy (@lexico (list N) _) (fst x) (fst y)) as [H|[H|H]].
Qed.

Lemma NoDup_keys_inj {V} (l : list (list N * V)) (x y : list N * V) :
  NoDup (List.map fst l) -> x ∈ l -> y ∈ l -> fst x = fst y -> x = y.
Proof.
  induction l as [|z l IH]; cbn [List.map]; intros Hnd Hx Hy Hk.
  - inversion Hx.
  - apply NoDup_cons in Hnd. destruct Hnd as [Hz Hnd].
    apply elem_of_cons in Hx, Hy.
    destruct Hx as [->|Hx], Hy as [->|Hy]; [reflexivity|..].
    + exfalso. apply Hz. rewrite Hk. apply list_elem_of_In, in_map.
      by apply list_elem_of_In.
    + exfalso. apply Hz. rewrite <- Hk. apply list_elem_of_In, in_map.
      by apply list_elem_of_In.
    + by apply IH.
Qed.

Lemma key_sort_order_independent (r1 r2 : list (list N * list N)) :
  r1 ≡ₚ r2 -> NoDup (List.map fst r1) ->
  merge_sort Sorting.key_le r1 = merge_sort Sorting.key_le r2.
Proof.
  intros Hp Hnd. apply (Sorted_unique_strong Sorting.key_le).
  - intros x1 x2 H1 H2 H12 H21.
    rewrite merge_sort_Permutation in H1, H2. rewrite <- Hp in H2.
    eapply NoDup_keys_inj; eauto using key_le_antisymm.
  - apply Sorted_merge_sort, _.
  - apply Sorted_merge_sort, _.
  - by rewrite !merge_sort_Permutation.
Qed.

(** X9.  For a dict with pairwise distinct keys, the text returned by
    [format_component] does not depend on the insertion order of the
    dict: the keys are sorted before they are written. *)
Theorem format_component_dict_order_independent
    (d1 d2 : list (list N * Json.value)) :
  d1 ≡ₚ d2 -> NoDup (keys d1) ->
  format_component (CDict d1) = format_component (CDict d2).
Proof.
  intros Hp Hnd. unfold format_component, dumps. cbn [dumps_at].
  rewrite (key_sort_order_independent _
             (List.map (fun kv : list N * Json.value =>
                          match kv with
                          | (k, x) => (k, dumps_at (Some 2%nat) true 1 x)
                          end) d2)).
  - reflexivity.
  - by apply Permutation_map.
  - rewrite List.map_map. unfold keys in Hnd.
    erewrite List.map_ext; [exact Hnd|]. intros [k x]. reflexivity.
Qed.

Lemma format_component_dict_order_independent_witness :
  format_component (CDict (source_dict (comp_source sample_components))) =
  format_component
    (CDict [ (lit "hash", JStr (source_hash (comp_source sample_components)));
             (lit "content", JStr (source_content (comp_source sample_components))) ]).
Proof.
  apply format_component_dict_order_independent.
  - apply perm_swap.
  - unfold keys. cbn [List.map source_dict fst].
    apply NoDup_cons. split; [|apply NoDup_singleton].
    intros H. apply list_elem_of_singleton in H.
    vm_compute in H. discriminate.
Defined.

Lemma print_encodable (s : list N) : encodable s -> encodable (print s).
Proof.
  intros H. apply encodable_app; [assumption|].
  apply encodable_ascii. reflexivity.
Qed.

Lemma breakdown_encodable (c : Components) :
  encodable (comp_triton_key c) -> encodable (comp_final_composite c) ->
  encodable (breakdown c).
Proof.
  intros Htk Hcomp. unfold breakdown.
  repeat (apply encodable_app; [apply print_encodable|]);
    try apply print_encodable;
    try assumption;
    try (apply encodable_ascii; first [reflexivity | apply format_component_dict_ascii]).
Qed.

(** X10.  Whatever the CLI writes to standard output can be encoded in
    UTF-8, in both modes, so writing it to a UTF-8 stream cannot fail;
    without [--verbose] the output is plain ASCII. *)
Theorem main_stdout_encodable (w : World) (verbose : bool) :
  encodable (fst (main w verbose)) /\ is_ascii (fst (main w false)) = true.
Proof.
  assert (Hkey : forall key c,
             generate_triton_cache_key w None = Ok (key, c) ->
             is_ascii (print (10 :: key)) = true /\ encodable (breakdown c)).
  { intros key c Hg. apply generate_Ok in Hg.
    destruct Hg as (tk & bi & env & sh & bh & oh & eh &
                    _ & _ & _ & _ & _ & _ & _ & Hk & ->).
    split.
    - unfold print. apply sha256_hex_hex64, hex64_ascii in Hk as Ha.
      rewrite is_ascii_app.
      change (is_ascii (10 :: key)) with ((10 <? 128) && is_ascii key).
      rewrite Ha. reflexivity.
    - apply sha256_hex_Ok_encodable in Hk as Hc.
      apply breakdown_encodable; cbn [components_of comp_triton_key
                                       comp_final_composite]; [|exact Hc].
      cbn [join] in Hc. apply encodable_app_inv in Hc. tauto. }
  split.
  - destruct (main_inv w verbose) as [(key & c & Hg & ->) | (e & Hg & ->)];
      cbn [fst]; [|apply encodable_ascii; reflexivity].
    destruct (Hkey key c Hg) as [Ha Hb].
    apply encodable_app; [|apply encodable_ascii, Ha].
    destruct verbose; [exact Hb | apply encodable_ascii; reflexivity].
  - destruct (main_inv w false) as [(key & c & Hg & ->) | (e & Hg & ->)];
      cbn [fst]; [|reflexivity].
    apply (Hkey key c Hg).
Qed.

(* ===================================================================== *)
(** ** The backend descriptor *)
(* ===================================================================== *)

Lemma lit_inj (s1 s2 : string) : lit s1 = lit s2 -> s1 = s2.
Proof.
  unfold lit. revert s2.
  induction s1 as [|a s1 IH]; intros [|b s2];
    cbn [list_ascii_of_string List.map]; intros H; try discriminate.
  - reflexivity.
  - injection H as Hab H. f_equal; [|by apply IH].
    by rewrite <- (ascii_N_embedding a), Hab, ascii_N_embedding.
Qed.

Lemma to_int_parses (z : Z) :
  NilZero.int_of_string (NilZero.string_of_int (Z.to_int z)) = Some (Z.to_int z).
Proof.
  apply NilZero.isi; destruct z; cbn; try discriminate;
    intros [= H]; by apply DecimalPos.Unsigned.to_uint_nonnil in H.
Qed.

Lemma str_of_int_inj (z1 z2 : Z) : str_of_int z1 = str_of_int z2 -> z1 = z2.
Proof.
  unfold str_of_int. intros H. apply lit_inj in H.
  pose proof (to_int_parses z1) as H1. rewrite H, to_int_parses in H1.
  injection H1 as H1. apply (f_equal Z.of_int) in H1.
  by rewrite !DecimalZ.of_to in H1.
Qed.

Lemma split_at_dash (a1 a2 r1 r2 : list N) :
  dash_free a1 = true -> dash_free a2 = true ->
  a1 ++ 45 :: r1 = a2 ++ 45 :: r2 -> a1 = a2 /\ r1 = r2.
Proof.
  revert a2. induction a1 as [|c a1 IH]; intros [|c2 a2];
    cbn [dash_free forallb app]; intros H1 H2 H.
  - injection H as ->. auto.
  - injection H as <- _. discriminate.
  - injection H as -> _. discriminate.
  - injection H as -> H. apply andb_true_iff in H1, H2.
    destruct (IH a2) as [-> ->]; tauto.
Qed.

Lemma get_current_target_with_target (w : World) (t : GPUTarget) :
  get_current_target (with_target w t) =
  Ok (backend t ++ 45 :: arch t ++ 45 :: str_of_int (warp_size t)).
Proof. reflexivity. Qed.

(** X11.  When backend and architecture names contain no ["-"], the
    descriptor determines the target: two targets with the same descriptor
    have the same backend, architecture and warp size. *)
Theorem descriptor_determines_target (w1 w2 : World) (t1 t2 : GPUTarget) :
  dash_free (backend t1) = true -> dash_free (arch t1) = true ->
  dash_free (backend t2) = true -> dash_free (arch t2) = true ->
  get_current_target (with_target w1 t1) = get_current_target (with_target w2 t2) ->
  t1 = t2.
Proof.
  intros Hb1 Ha1 Hb2 Ha2. rewrite !get_current_target_with_target.
  intros [= H]. apply split_at_dash in H; [|assumption..].
  destruct H as [Hb H]. apply split_at_dash in H; [|assumption..].
  destruct H as [Ha H]. apply str_of_int_inj in H.
  destruct t1, t2. cbn in *. congruence.
Qed.

Lemma descriptor_determines_target_witness :
  {| backend := lit "cuda"; arch := lit "sm90"; warp_size := 32 |} =
  {| backend := lit "cuda"; arch := lit "sm90"; warp_size := 32 |}.
Proof.
  apply (descriptor_determines_target sample_world no_driver_world);
    reflexivity.
Defined.

(** X12.  When backend and architecture names contain no ["-"], a driver
    query that succeeds never yields the sentinel
    ["unknown-backend-0-0"]: the sentinel then stands for a failed query
    only. *)
Theorem sentinel_means_failure (w : World) (t : GPUTarget) :
  dash_free (backend t) = true -> dash_free (arch t) = true ->
  get_current_target (with_target w t) <> Ok sentinel.
Proof.
  intros Hb Ha. rewrite get_current_target_with_target. intros [= H].
  change sentinel with (lit "unknown" ++ 45 :: lit "backend" ++ 45 :: lit "0-0") in H.
  apply split_at_dash in H; [|assumption | reflexivity].
  destruct H as [_ H]. apply split_at_dash in H; [|assumption | reflexivity].
  destruct H as [_ H]. unfold str_of_int in H. apply lit_inj in H.
  pose proof (to_int_parses (warp_size t)) as Hp. rewrite H in Hp.
  discriminate.
Qed.

Lemma sentinel_means_failure_witness :
  get_current_target
    (with_target no_driver_world
       {| backend := lit "cuda"; arch := lit "sm90"; warp_size := 32 |})
  <> Ok sentinel.
Proof. apply sentinel_means_failure; reflexivity. Defined.

(* ===================================================================== *)
(** ** The log *)
(* ===================================================================== *)

Lemma logged_get_current_target (w : World) :
  Logged.get_current_target w = (target_log w, get_current_target w).
Proof.
  unfold Logged.get_current_target, get_current_target, target_log.
  destruct (query_current_target w); reflexivity.
Qed.

Lemma logged_get_env_vars_for_cache (w : World) :
  Logged.get_env_vars_for_cache w =
  (registry_log w, get_cache_invalidating_env_vars w).
Proof.
  unfold Logged.get_env_vars_for_cache, Logged.get_cache_invalidating_env_vars,
    get_cache_invalidating_env_vars, registry_log.
  destruct (query_env_registry w) as [d|e]; [reflexivity|].
  cbn. destruct (is_ImportError e); reflexivity.
Qed.

(** Logging does not alter the outcome; the log of a derivation is the
    trace of the degraded queries, followed by one ERROR record when the
    derivation raises. *)
Lemma logged_generate (w : World) (src : option str) :
  snd (Logged.generate_triton_cache_key w src) = generate_triton_cache_key w src /\
  match generate_triton_cache_key w src with
  | Ok _ =>
      fst (Logged.generate_triton_cache_key w src) = target_log w ++ registry_log w
  | Raise e =>
      exists l,
        fst (Logged.generate_triton_cache_key w src) = l ++ [error_generate e] /\
        l `prefix_of` target_log w ++ registry_log w
  end.
Proof.
  unfold Logged.generate_triton_cache_key, generate_triton_cache_key.
  rewrite try_reraise, logged_get_current_target, logged_get_env_vars_for_cache.
  unfold get_env_vars_for_cache.
  cbn -[sha256_hex dumps Sorting.sorted lit target_log registry_log].
  repeat match goal with
         | |- context [match ?m with Ok _ => _ | Raise _ => _ end] =>
             lazymatch m with
             | context [mbind] => fail
             | _ => destruct m as [?|?]
             end;
             cbn -[sha256_hex dumps Sorting.sorted lit target_log registry_log]
         end.
  all: split; [reflexivity|].
  all: try (exists []; split; [reflexivity | apply prefix_nil]).
  all: try (eexists; split; [reflexivity|]).
  all: rewrite ?app_nil_r.
  all: try reflexivity.
  all: try (eexists; reflexivity).
Qed.

(** X13.  A derivation that returns a key has logged one ERROR record
    ["Failed to get current target"] if the driver query raised, then one
    WARNING record ["Failed to import Triton's C library"] if the registry
    query raised an [ImportError], each with the exception caught, and
    nothing else; the toolchain key, logged at DEBUG level, is not
    emitted. *)
Theorem successful_derivation_log
    (w : World) (src : option str) (key : str) (c : Components) :
  generate_triton_cache_key w src = Ok (key, c) ->
  Logged.generate_triton_cache_key w src =
    (target_log w ++ registry_log w, Ok (key, c)).
Proof.
  intros H. destruct (logged_generate w src) as [Hs Hl].
  rewrite H in Hs, Hl.
  destruct (Logged.generate_triton_cache_key w src) as [l r].
  cbn [fst snd] in *. congruence.
Qed.

Lemma successful_derivation_log_witness :
  Logged.generate_triton_cache_key no_registry_world None =
    ([warning_import ModuleNotFoundError],
     generate_triton_cache_key no_registry_world None).
Proof.
  destruct (generate_triton_cache_key no_registry_world None)
    as [[key c]|e] eqn:E.
  - apply (successful_derivation_log no_registry_world None key c E).
  - vm_compute in E. discriminate.
Defined.



(* ===================================================================== *)
(** ** What the components record reports *)
(* ===================================================================== *)

(** X15.  The components record of a successful derivation reports what was
    gathered, unchanged: the environment variables are the registry's
    mapping in the registry's own order when the query answered, and the
    empty mapping when it raised (then an [ImportError]); the backend
    descriptor is the one formatted from the driver's answer when the
    driver query answered, and the sentinel when it raised. *)
Theorem components_report_gathered
    (w : World) (src : option str) (key : str) (c : Components) :
  generate_triton_cache_key w src = Ok (key, c) ->
  (forall d, query_env_registry w = Ok d ->
     environment_variables (comp_environment c) = d) /\
  (forall e, query_env_registry w = Raise e ->
     environment_variables (comp_environment c) = [] /\
     is_ImportError e = true) /\
  (forall bi, query_current_target w = Ok bi ->
     backend_info (comp_backend c) = bi) /\
  (forall e, query_current_target w = Raise e ->
     backend_info (comp_backend c) = sentinel).
Proof.
  intros H. apply generate_Ok in H.
  destruct H as (tk & bi & env & sh & bh & oh & eh &
                 _ & Hbi & Henv & _ & _ & _ & _ & _ & ->).
  cbn [components_of comp_environment comp_backend environment_variables
       backend_info].
  unfold get_cache_invalidating_env_vars in Henv.
  unfold get_current_target in Hbi.
  repeat split.
  - intros d Hd. rewrite Hd in Henv. cbn in Henv. congruence.
  - rewrite H in Henv. cbn in Henv.
    destruct (is_ImportError e); cbn in Henv; congruence.
  - rewrite H in Henv. cbn in Henv.
    destruct (is_ImportError e); [reflexivity | discriminate].
  - intros bi' Hq. rewrite Hq in Hbi. cbn in Hbi. congruence.
  - intros e Hq. rewrite Hq in Hbi. cbn in Hbi. injection Hbi as <-.
    reflexivity.
Qed.

Lemma components_report_gathered_witness :
  environment_variables (comp_environment sample_components) =
    [(lit "B", lit "1"); (lit "A", lit "x")] /\
  backend_info (comp_backend sample_components) = lit "cuda-sm90-32".
Proof.
  destruct (components_report_gathered sample_world None
              sample_key sample_components) as (H1 & _ & H2 & _).
  - vm_compute. reflexivity.
  - split; [apply H1 | apply H2]; reflexivity.
Defined.
